(* ===== verification/_CoqProject ===== *)
-Q . S2P
Prelude.v
JsNumber.v
PerformanceTag.v
PerformanceSpec.v
PerformanceHook.v
PerformanceView.v
Jest.v
ErrorMessage.v
ErrorMessageTest.v
