(* ===== verification/Prelude.v ===== *)
(** * A verification development of jan-aibot's decision policies

    The repository holds two pieces of code that decide something:

    - [src/web/app/_hooks/useGetPerformanceTag.ts]: the React hook
      [useGetPerformanceTag] and its helper [calculateRamPerformance], which
      classify how well a model fits the machine's RAM
      ([PerformancePositive] / [PerformanceNeutral] / [PerformanceNegative])
      and derive the label shown next to a model.  The hook keeps one piece
      of state ([performanceTag], a [useState]) and updates it from an
      asynchronous call [getPerformanceForModel] that awaits the
      system-monitoring plugin ([executeSerial(GetResourcesInfo)]).
    - [src/web/containers/ErrorMessage/index.test.tsx]: the Jest suite of
      the chat [ErrorMessage] component.  The component itself
      ([ErrorMessage/index.tsx]) is not in the repository; its contract is
      taken from the specification (status and error code of a message to a
      recovery disposition and one collaborator call), and the suite's mock
      environment ([jest.fn] mocks, [mockReturnValue], [clearAllMocks], the
      five [it] cases) is modelled from the test file.

    The two parts share no state.  Inside each the interaction goes through
    collaborators: the hook awaits the resource probe; the component calls
    the resend and navigation functions it obtains from hooks, which the
    suite replaces by mocks.

    ** Files, in dependency order, and what they model

    - [Prelude] (this file): the [jan] hint database, the
      generic lemmas on booleans and lists, the bounded range check
      [forall_Z_range] with its soundness lemma, the [case_goal] tactic.
    - [JsNumber]: a TypeScript [number] as an IEEE-754 binary64 value, the
      kernel's primitive [float], whose operations [FloatAxioms] specifies
      through [SpecFloat].  JS [/], [<] and [>=] ([js_div], [js_lt],
      [js_ge]; [x >= y] is IEEE's [y <= x]), the literals [0.8] (the
      nearest double, as a JS engine reads it) and [1].  Lemmas: [SFcompare]
      is antisymmetric and transitive on [Lt], a comparison that fails both
      ways involves a NaN, the sign of a quotient of finite numbers,
      division is invariant under a common exponent shift ([SFdiv_shift]),
      and [same_num] (JS [===] with NaN equal to itself) is an
      [Equivalence] respected by [<], [>=] and division in its numerator.
    - [PerformanceTag], [Module RamPerformance]: [calculateRamPerformance]
      (lines 40-53) and the label switch [title] (lines 24-35) literally.
      Theorems C1, C9-C12: the three branches characterised by the float
      comparisons; the [percentage >= 0.8] conjunct is redundant; a zero
      total or a NaN gives Negative, a finite negative total gives Positive
      (the sign of an IEEE quotient, [JsNumber.SFdiv_finite_sign]).
    - [PerformanceSpec], [Module RamSpec]: the specification's tiers over
      exact rationals ([classify_ratio]), its label table ([spec_label]),
      and the tiers the comment of lines 7-10 describes ([comment_tier]).
      Theorems C2, C8, C21: the float code computes the specification's
      tier for every pair of integer figures up to [ram_bound] = 2048 scaled
      by a common [2^k], k <= 40 (whole bytes, KiB, MiB or GiB): a
      [vm_compute] check of the 4 million unscaled pairs, sound by
      [forall_Z_range_spec], carried to the scaled ones by the
      exponent-shift invariance of [SFdiv]; it differs from the comment
      exactly when requirement and RAM are equal; the label switch is the
      specification's label table.
    - [PerformanceHook], [Module PerformanceHook]: the hook's state
      ([HookState], the [useState]), [getPerformanceForModel] split at its
      [await] into a [Call] event and a [Settle] event whose resumption
      [getPerformanceForModel_resume] runs lines 19-21 or propagates a
      rejection; a [World] holds the state and the calls in flight in a
      [gmap nat] (call numbers are a device of the model that names each
      pending [await]), [step]/[run] execute events, [reachable] is the
      inductive closure, with the freshness of call numbers as its
      invariant.  Theorems C3-C6, C14, C15: a simulation of the trace
      specification [spec_run] ("the tag of the call resolved last, calls
      numbered in order"); the tag after any interleaving is the
      classification of the last resolved call; out-of-order resolution
      leaves a stale tag; in serial use (no call while another awaits the
      probe, section 5's "single outstanding request") every resolution
      answers the latest call, so the race needs overlapping calls (from
      the invariant [latest_in_flight] of serial runs); a call whose probe
      is rejected leaves the world as it was but for the counter, the
      previous tag included; a rejection commutes with any other
      settlement.
    - [PerformanceView], [Module PerformanceView]: the composition of the
      three layers above, as a caller of the hook sees it.  Theorems C7,
      C13: a call whose own probe resolves shows its tier and label; the
      tier and label shown for figures in a common power-of-two unit are
      the specification's tier of the exact ratio and its label (C2
      through the hook).
    - [Jest], [Module Jest]: the mock runtime the suite uses, a
      [gmap string mock] store of named mocks whose function values alias
      store entries ([jest.fn], [mockReturnValue], [clearAllMocks], calls,
      [toHaveBeenCalled], [toHaveBeenCalledWith]).
    - [ErrorMessage], [Module ErrorMessage]: the component's contract, from
      the specification (its source is not in the repository): [classify],
      [render], the click [handle]rs as calls of the [Collaborators] (a
      record of the function values the component obtains from its hooks).
      It carries no claim of its own: it is the component the suite is run
      against.
    - [ErrorMessageTest], [Module ErrorMessageTest]: the test file's module
      mocks, [beforeEach], fixtures and five cases as functions of the mock
      store, with [run_cases] running them as Jest does; the cases are
      parameterised by the [Component] under test (its rendering and click
      handling).  Theorems C16-C20: [beforeEach]'s three [mockReturnValue]
      calls on [useSetAtom] leave both setters aliased to
      [mockSetModalTroubleShooting]; [beforeEach] leaves no recorded call on
      any mock; any sequence of the cases, in any order, passes against the
      contract; the suite passes for a component that resends with
      arbitrary arguments instead of the message, and for every component
      that agrees with the contract on the three fixture messages, however
      it treats any other message.

    ** Bounds and fuel

    No definition needs fuel: every function is structural, and [run] is
    structural in its event list.  The refinement of the exact tiers is
    proved for integer figures in [0, 2048] x [1, 2048] times a common
    [2^k], [k <= 40]: the machine RAM and model requirements of the
    application are whole MiB or GiB, so 2048 GiB at a common power-of-two
    unit covers them.  Figures that share no such unit (e.g. 3000 MiB over
    7.5 GiB counted in bytes) would need a rounding theory of [SFdiv];
    Flocq is not available.

    ** Not modelled

    React rendering and styling (a rendering is the list of elements with
    text, test id and click handler); the plugin manager behind
    [executeSerial] and the probe's measurement (only its outcome is
    modelled); the chat transport behind [resendChatMessage] and the jotai
    atoms (only the calls made to them); Jest's mock implementations,
    [mock.results] and module hoisting.  The import lines of the hook
    (1-5) bring these collaborators in and translate to nothing; a probe
    that never settles is a call left in flight forever (the code sets no
    timeout), which the model represents as a [Settle] event that never
    occurs.

    ** Further work

    - the fix of the stale-result race (a request counter that ignores
      stale resumptions) with the theorem that its tag is that of the
      latest call;
    - the Jest matchers the suite does not use ([toHaveBeenCalledTimes],
      [mock.results]), should the suite grow. *)

From Stdlib Require Import Bool List ZArith Lia.
Import ListNotations.

Declare Scope jan_scope.
Delimit Scope jan_scope with jan.

Create HintDb jan.

(** ** Booleans *)

Lemma negb_orb_false (a b : bool) : a || b = false <-> a = false /\ b = false.
Proof. destruct a, b; intuition congruence. Qed.

Lemma andb_true_split (a b : bool) : a && b = true <-> a = true /\ b = true.
Proof. apply andb_true_iff. Qed.

(** ** Lists *)

Lemma existsb_app_l {A} (f : A -> bool) (l1 l2 : list A) :
  existsb f l1 = true -> existsb f (l1 ++ l2) = true.
Proof. intros H. rewrite existsb_app, H. reflexivity. Qed.

Lemma existsb_snoc {A} (f : A -> bool) (l : list A) (x : A) :
  f x = true -> existsb f (l ++ [x]) = true.
Proof. intros H. rewrite existsb_app. simpl. rewrite H, orb_true_r. reflexivity. Qed.

#[export] Hint Resolve existsb_app_l existsb_snoc : jan.

(** ** Bounded checks over integer ranges

    [forall_Z_range lo hi f] tests [f] on every integer of [[lo, hi]]; a
    [vm_compute] of it proves a universally quantified fact on the range. *)

Fixpoint forall_Z_from (z : Z) (n : nat) (f : Z -> bool) : bool :=
  match n with
  | O => true
  | S n' => f z && forall_Z_from (z + 1)%Z n' f
  end.

Definition forall_Z_range (lo hi : Z) (f : Z -> bool) : bool :=
  forall_Z_from lo (Z.to_nat (hi - lo + 1)) f.

Lemma forall_Z_from_spec (n : nat) (z : Z) (f : Z -> bool) :
  forall_Z_from z n f = true ->
  forall x, (z <= x < z + Z.of_nat n)%Z -> f x = true.
Proof.
  revert z. induction n as [|n IH]; simpl; intros z H x Hx; [lia|].
  apply andb_true_iff in H as [Hz Hn].
  destruct (Z.eq_dec x z) as [->|Hne]; [exact Hz|].
  apply (IH (z + 1)%Z Hn). lia.
Qed.

Lemma forall_Z_range_spec (lo hi : Z) (f : Z -> bool) :
  forall_Z_range lo hi f = true -> forall z, (lo <= z <= hi)%Z -> f z = true.
Proof.
  unfold forall_Z_range. intros H z Hz.
  apply (forall_Z_from_spec _ _ _ H). lia.
Qed.

(** ** Tactics *)

(** Case on every [match] and [if] of the goal, naming the equations. *)
Ltac case_goal :=
  repeat match goal with
  | |- context [match ?x with _ => _ end] =>
      lazymatch x with
      | context [match _ with _ => _ end] => fail
      | _ => let E := fresh "E" in destruct x eqn:E
      end
  end.
