(* ===== verification/JsNumber.v ===== *)
(** * JavaScript numbers as IEEE-754 binary64 values

    A TypeScript [number] is an IEEE-754 binary64 value; the kernel's
    primitive [float] is the same format, with [FloatAxioms] specifying each
    primitive through [SpecFloat].  This file fixes the operations the
    modelled code uses ([/], [<], [>=], the literals [0.8] and [1]), proves
    the comparison facts the components share (antisymmetry of [SFcompare],
    the NaN cases) and defines [same_num], equality of numbers up to the sign
    of zero and with NaN equal to itself, with the [Proper] instances of the
    comparisons and of division in its numerator. *)

From Stdlib Require Import Floats ZArith Bool Lia Morphisms RelationClasses.
From Stdlib Require Uint63.
From S2P Require Import Prelude.

Abbreviation number := float.

(** ** The operations of the modelled code *)

(** [x / y] *)
Definition js_div (x y : number) : number := PrimFloat.div x y.

(** [x < y]: false as soon as one side is NaN. *)
Definition js_lt (x y : number) : bool := PrimFloat.ltb x y.

(** [x >= y]: ECMAScript answers false when [x < y] holds or is undefined
    (a NaN), which is IEEE's [y <= x]. *)
Definition js_ge (x y : number) : bool := PrimFloat.leb y x.

(** The literals [0.8] and [1]: [0.8] is read, as by a JS engine, as the
    binary64 value nearest to 0.8, that is 0x1.999999999999ap-1. *)
#[warnings="-inexact-float"]
Definition lit_0_8 : number := 0.8%float.
Definition lit_1 : number := 1%float.

(** An integer as a number, exact for magnitudes below 2^53. *)
Definition num_of_Z (z : Z) : number :=
  if (z <? 0)%Z then PrimFloat.opp (PrimFloat.of_uint63 (Uint63.of_Z (- z)))
  else PrimFloat.of_uint63 (Uint63.of_Z z).

(** Equality up to the sign of zero, NaN equal to itself. *)
Definition same_num (x y : number) : Prop :=
  PrimFloat.eqb x y = true \/ (PrimFloat.is_nan x = true /\ PrimFloat.is_nan y = true).

(** A finite value with its exponent shifted by [k]: the value times [2^k]. *)
Definition shift_sf (k : Z) (x : spec_float) : spec_float :=
  match x with
  | S754_finite s m e => S754_finite s m (e + k)
  | _ => x
  end.

(** The sign of a value that is not NaN. *)
Definition sf_sign (x : spec_float) : option bool :=
  match x with
  | S754_zero s | S754_infinity s | S754_finite s _ _ => Some s
  | S754_nan => None
  end.

Definition sf_zero (x : spec_float) : bool :=
  match x with S754_zero _ => true | _ => false end.

(** The same relation on the specification's values. *)
Definition sf_same (a b : spec_float) : Prop :=
  a = b \/ (sf_zero a = true /\ sf_zero b = true).

(** ** [SFcompare] *)

Lemma Pos_compare_cont_antisym (a b : positive) :
  PosDef.Pos.compare_cont Eq b a = CompOpp (PosDef.Pos.compare_cont Eq a b).
Proof. apply (Pos.compare_antisym a b). Qed.

Lemma SFcompare_antisym (x y : spec_float) :
  SFcompare y x = option_map CompOpp (SFcompare x y).
Proof.
  destruct x as [sx|sx| |sx mx ex], y as [sy|sy| |sy my ey];
    try destruct sx; try destruct sy; simpl; try reflexivity.
  all: rewrite (Pos_compare_cont_antisym mx my), (Z.compare_antisym ex ey);
       destruct (ex ?= ey)%Z, (PosDef.Pos.compare_cont Eq mx my); reflexivity.
Qed.

Lemma SFcompare_None (x y : spec_float) :
  SFcompare x y = None <-> x = S754_nan \/ y = S754_nan.
Proof.
  destruct x as [sx|sx| |sx mx ex], y as [sy|sy| |sy my ey]; simpl;
    intuition congruence.
Qed.

Lemma SFcompare_Eq (x y : spec_float) :
  SFcompare x y = Some Eq <->
  (x = y /\ x <> S754_nan) \/ (sf_zero x = true /\ sf_zero y = true).
Proof.
  destruct x as [sx|sx| |sx mx ex], y as [sy|sy| |sy my ey]; simpl;
    try destruct sx; try destruct sy; simpl; try (intuition congruence; fail).
  all: split; [intros H | intros [[H _]|[_ H]]; [inversion H; subst | discriminate]].
  all: try (rewrite Z.compare_refl; change (PosDef.Pos.compare_cont Eq my my)
              with (Pos.compare my my); rewrite Pos.compare_refl; reflexivity).
  all: revert H; destruct (ex ?= ey)%Z eqn:E1; try discriminate;
       destruct (PosDef.Pos.compare_cont Eq mx my) eqn:E2; try discriminate;
       intros _; apply Z.compare_eq in E1; apply (Pos.compare_eq mx my) in E2;
       subst; left; split; [reflexivity | discriminate].
Qed.

(** Case on every comparison of exponents and mantissas in the goal. *)
Ltac case_compares :=
  repeat match goal with
  | |- context [(?a ?= ?b)%Z] => destruct (Z.compare_spec a b); try subst
  | |- context [PosDef.Pos.compare_cont Eq ?a ?b] =>
      change (PosDef.Pos.compare_cont Eq a b) with (Pos.compare a b);
      destruct (Pos.compare_spec a b); try subst
  end.

(** [SFcompare] is a lexicographic order on sign, exponent and mantissa:
    [Lt] is transitive on every representation, canonical or not. *)
Lemma SFcompare_lt_trans (x y z : spec_float) :
  SFcompare x y = Some Lt -> SFcompare y z = Some Lt -> SFcompare x z = Some Lt.
Proof.
  destruct x as [sx|sx| |sx mx ex], y as [sy|sy| |sy my ey],
    z as [sz|sz| |sz mz ez];
    try destruct sx; try destruct sy; try destruct sz; simpl;
    try (intros; discriminate); try reflexivity.
  all: case_compares; simpl; intros; try discriminate; try reflexivity; lia.
Qed.

(** ** The primitives through their specification *)

Lemma js_lt_sf (x y : number) :
  js_lt x y = SFltb (Prim2SF x) (Prim2SF y).
Proof. apply ltb_spec. Qed.

Lemma js_ge_sf (x y : number) :
  js_ge x y = SFleb (Prim2SF y) (Prim2SF x).
Proof. apply leb_spec. Qed.

Lemma SFcompare_refl (x : spec_float) :
  x <> S754_nan -> SFcompare x x = Some Eq.
Proof. intros H. apply SFcompare_Eq. left. auto. Qed.

(** [is_nan], defined as [negb (x =? x)], is the NaN of the specification. *)
Lemma is_nan_spec (x : number) :
  PrimFloat.is_nan x = true <-> Prim2SF x = S754_nan.
Proof.
  unfold PrimFloat.is_nan. rewrite FloatAxioms.eqb_spec. unfold SFeqb.
  destruct (Prim2SF x) eqn:E.
  all: try (rewrite SFcompare_refl by discriminate); simpl; intuition congruence.
Qed.

(** Neither [x < y] nor [x >= y]: one side is NaN. *)
Lemma js_lt_ge_false (x y : number) :
  js_lt x y = false -> js_ge x y = false ->
  Prim2SF x = S754_nan \/ Prim2SF y = S754_nan.
Proof.
  rewrite js_lt_sf, js_ge_sf. unfold SFltb, SFleb.
  rewrite (SFcompare_antisym (Prim2SF x)).
  destruct (SFcompare (Prim2SF x) (Prim2SF y)) as [[]|] eqn:E; simpl;
    try discriminate. intros _ _. now apply SFcompare_None.
Qed.

Lemma js_lt_nan_l (x y : number) : Prim2SF x = S754_nan -> js_lt x y = false.
Proof. intros H. rewrite js_lt_sf, H. reflexivity. Qed.

Lemma js_ge_nan_l (x y : number) : Prim2SF x = S754_nan -> js_ge x y = false.
Proof.
  intros H. rewrite js_ge_sf, H. unfold SFleb.
  destruct (Prim2SF y); reflexivity.
Qed.

Lemma js_lt_trans (x y z : number) :
  js_lt x y = true -> js_lt y z = true -> js_lt x z = true.
Proof.
  rewrite !js_lt_sf. unfold SFltb.
  destruct (SFcompare (Prim2SF x) (Prim2SF y)) as [[]|] eqn:E1; try discriminate.
  destruct (SFcompare (Prim2SF y) (Prim2SF z)) as [[]|] eqn:E2; try discriminate.
  now rewrite (SFcompare_lt_trans _ _ _ E1 E2).
Qed.

(** [x >= y] excludes [x < y]. *)
Lemma js_ge_not_lt (x y : number) : js_ge x y = true -> js_lt x y = false.
Proof.
  rewrite js_lt_sf, js_ge_sf. unfold SFltb, SFleb.
  rewrite (SFcompare_antisym (Prim2SF x)).
  destruct (SFcompare (Prim2SF x) (Prim2SF y)) as [[]|]; simpl; congruence.
Qed.

#[export] Hint Resolve js_lt_nan_l js_ge_nan_l js_ge_not_lt : jan.

(** ** [same_num], a setoid on numbers *)

Lemma js_eqb_sf (x y : number) :
  PrimFloat.eqb x y = true <-> SFcompare (Prim2SF x) (Prim2SF y) = Some Eq.
Proof.
  rewrite FloatAxioms.eqb_spec. unfold SFeqb.
  destruct (SFcompare _ _) as [[]|]; intuition congruence.
Qed.

Lemma same_num_sf (x y : number) : same_num x y <-> sf_same (Prim2SF x) (Prim2SF y).
Proof.
  unfold same_num, sf_same. rewrite js_eqb_sf, SFcompare_Eq, !is_nan_spec.
  destruct (Prim2SF x), (Prim2SF y); simpl; intuition congruence.
Qed.

#[export] Instance same_num_equiv : Equivalence same_num.
Proof.
  split; repeat intro; rewrite same_num_sf in *; unfold sf_same in *; intuition congruence.
Qed.

Lemma SFcompare_same_l (a a' b : spec_float) :
  sf_same a a' -> SFcompare a b = SFcompare a' b.
Proof.
  intros [->|[Ha Ha']]; [reflexivity|].
  destruct a, a'; try discriminate; destruct b; reflexivity.
Qed.

Lemma SFcompare_same_r (a b b' : spec_float) :
  sf_same b b' -> SFcompare a b = SFcompare a b'.
Proof.
  intros H. rewrite (SFcompare_antisym b a), (SFcompare_antisym b' a).
  f_equal. now apply SFcompare_same_l.
Qed.

#[export] Instance js_lt_proper : Proper (same_num ==> same_num ==> eq) js_lt.
Proof.
  intros x x' Hx y y' Hy. rewrite same_num_sf in Hx, Hy. rewrite !js_lt_sf.
  unfold SFltb. now rewrite (SFcompare_same_l _ _ _ Hx), (SFcompare_same_r _ _ _ Hy).
Qed.

#[export] Instance js_ge_proper : Proper (same_num ==> same_num ==> eq) js_ge.
Proof.
  intros x x' Hx y y' Hy. rewrite same_num_sf in Hx, Hy. rewrite !js_ge_sf.
  unfold SFleb. now rewrite (SFcompare_same_l _ _ _ Hy), (SFcompare_same_r _ _ _ Hx).
Qed.

(** Division respects [same_num] in its numerator: [0 / y] and [-0 / y]
    are both zeros or both NaN. *)
#[export] Instance js_div_proper_l : Proper (same_num ==> eq ==> same_num) js_div.
Proof.
  intros x x' Hx y y' <-. rewrite same_num_sf in *. unfold js_div. rewrite !div_spec.
  destruct Hx as [->|[Hx Hx']]; [left; reflexivity|].
  destruct (Prim2SF x), (Prim2SF x'); try discriminate.
  unfold sf_same. destruct (Prim2SF y); simpl; auto.
Qed.

(** ** Division: exponent shifts and signs *)

(** [SFdiv] sees the exponents of finite operands only through their
    difference: scaling both operands by [2^k] leaves the quotient. *)
Lemma SFdiv_shift (k : Z) (x y : spec_float) :
  SFdiv prec emax (shift_sf k x) (shift_sf k y) = SFdiv prec emax x y.
Proof.
  destruct x as [sx|sx| |sx mx ex], y as [sy|sy| |sy my ey]; try reflexivity.
  simpl. unfold SFdiv_core_binary.
  replace (ex + k - (ey + k))%Z with (ex - ey)%Z by lia.
  replace (Zdigits2 (Z.pos mx) + (ex + k) - (Zdigits2 (Z.pos my) + (ey + k)))%Z
    with (Zdigits2 (Z.pos mx) + ex - (Zdigits2 (Z.pos my) + ey))%Z by lia.
  reflexivity.
Qed.

Lemma iter_pos_preserves {A} (P : A -> Prop) (f : A -> A) (p : positive) (x : A) :
  (forall a, P a -> P (f a)) -> P x -> P (SpecFloat.iter_pos f p x).
Proof.
  intros Hf. revert x. induction p as [p IH|p IH|]; intros x Hx; simpl; auto.
Qed.

Lemma shr_1_nonneg (mrs : shr_record) :
  (0 <= shr_m mrs)%Z -> (0 <= shr_m (shr_1 mrs))%Z.
Proof.
  destruct mrs as [[|[p|p|]|p] r s]; simpl; lia.
Qed.

Lemma shr_fexp_nonneg (m e : Z) (l : location) :
  (0 <= m)%Z -> (0 <= shr_m (fst (shr_fexp prec emax m e l)))%Z.
Proof.
  intros Hm. unfold shr_fexp, shr.
  assert (H0 : (0 <= shr_m (shr_record_of_loc m l))%Z) by (destruct l as [|[]]; exact Hm).
  destruct (_ - e)%Z; simpl; [exact H0| |exact H0].
  apply (iter_pos_preserves (fun mrs => 0 <= shr_m mrs)%Z); [apply shr_1_nonneg | exact H0].
Qed.

Lemma round_nearest_even_nonneg (m : Z) (l : location) :
  (0 <= m)%Z -> (0 <= round_nearest_even m l)%Z.
Proof.
  intros H. destruct l as [|[]]; simpl; try destruct (Z.even m); lia.
Qed.

(** Rounding a non-negative mantissa gives a zero, a finite value or an
    infinity of the requested sign, never NaN. *)
Lemma binary_round_aux_sign (sx : bool) (mx ex : Z) (lx : location) :
  (0 <= mx)%Z -> sf_sign (binary_round_aux prec emax sx mx ex lx) = Some sx.
Proof.
  intros Hm. unfold binary_round_aux.
  pose proof (shr_fexp_nonneg mx ex lx Hm) as H1.
  destruct (shr_fexp prec emax mx ex lx) as [mrs' e'] eqn:E1. simpl in H1.
  pose proof (shr_fexp_nonneg _ e' loc_Exact
                (round_nearest_even_nonneg _ (loc_of_shr_record mrs') H1)) as H2.
  destruct (shr_fexp prec emax _ e' loc_Exact) as [mrs'' e''] eqn:E2. simpl in H2.
  destruct (shr_m mrs'') as [|m|m]; [reflexivity| |lia].
  destruct (e'' <=? emax - prec)%Z; reflexivity.
Qed.

(** The quotient of two finite values has the sign [xorb] of theirs. *)
Lemma SFdiv_finite_sign (sx sy : bool) (mx my : positive) (ex ey : Z) :
  sf_sign (SFdiv prec emax (S754_finite sx mx ex) (S754_finite sy my ey)) =
  Some (xorb sx sy).
Proof.
  simpl. unfold SFdiv_core_binary.
  set (s := (ex - ey - _)%Z).
  set (m' := match s with Z.pos _ => Z.shiftl (Z.pos mx) s | Z0 => Z.pos mx | Z.neg _ => 0%Z end).
  assert (Hm' : (0 <= m')%Z) by (unfold m'; destruct s; [lia| apply Z.shiftl_nonneg; lia | lia]).
  destruct (Z.div_eucl m' (Z.pos my)) as [q r] eqn:E.
  apply binary_round_aux_sign.
  change q with (fst (q, r)). rewrite <- E. apply Z.div_pos; lia.
Qed.

(** A value of negative sign, or a zero, is below every positive finite one. *)
Lemma SFcompare_neg_pos (x : spec_float) (m : positive) (e : Z) :
  sf_sign x = Some true \/ sf_zero x = true ->
  SFcompare x (S754_finite false m e) = Some Lt.
Proof. destruct x as [[]|[]| |[] ? ?]; simpl; intuition discriminate. Qed.
