(* ===== verification/PerformanceTag.v ===== *)
(** * The RAM-fit classifier of [useGetPerformanceTag.ts]

    [calculateRamPerformance] (lines 40-53) divides the model's RAM
    requirement by the machine's total RAM and compares the quotient with
    [0.8] and [1]; the label switch of the hook (lines 24-35) names the
    resulting tag.  Both are translated literally over JS numbers
    ([JsNumber]).  The theorems characterise each branch by the float
    comparisons, show that the [percentage >= 0.8] test of the second branch
    never decides anything, settle what the code does on a zero, NaN or
    negative total (the specification leaves it open).  The relation to the
    specification's exact tiers is in [PerformanceSpec]. *)

From Stdlib Require Import Floats ZArith QArith Bool List String Lia.
From S2P Require Import Prelude JsNumber.
Import ListNotations.

Module RamPerformance.

(** [ModelPerformance] as far as this hook uses it (the enum of
    [_components/SimpleTag/TagType]). *)
Inductive ModelPerformance :=
| PerformancePositive
| PerformanceNeutral
| PerformanceNegative.

Definition ModelPerformance_eqb (a b : ModelPerformance) : bool :=
  match a, b with
  | PerformancePositive, PerformancePositive
  | PerformanceNeutral, PerformanceNeutral
  | PerformanceNegative, PerformanceNegative => true
  | _, _ => false
  end.

Lemma ModelPerformance_eqb_eq (a b : ModelPerformance) :
  ModelPerformance_eqb a b = true <-> a = b.
Proof. destruct a, b; simpl; intuition congruence. Qed.

(** [calculateRamPerformance(requiredRamAmt, totalRamAmt)]. *)
Definition calculateRamPerformance (requiredRamAmt totalRamAmt : number)
    : ModelPerformance :=
  let percentage := js_div requiredRamAmt totalRamAmt in
  if js_lt percentage lit_0_8 then PerformancePositive
  else if js_ge percentage lit_0_8 && js_lt percentage lit_1
  then PerformanceNeutral
  else PerformanceNegative.

(** The label: [let title = ""; switch (performanceTag) {...}]; an unset
    tag ([undefined]) leaves the empty string. *)
Definition title (performanceTag : option ModelPerformance) : string :=
  match performanceTag with
  | Some PerformancePositive => "Recommended"
  | Some PerformanceNeutral => "Slow on your device"
  | Some PerformanceNegative => "Not enough RAM"
  | None => ""
  end.

(** The code with the [percentage >= 0.8] conjunct left out. *)
Definition calculateRamPerformance_unguarded (requiredRamAmt totalRamAmt : number)
    : ModelPerformance :=
  let percentage := js_div requiredRamAmt totalRamAmt in
  if js_lt percentage lit_0_8 then PerformancePositive
  else if js_lt percentage lit_1 then PerformanceNeutral
  else PerformanceNegative.

(** ** Branches *)

Lemma lit_0_8_sf : Prim2SF lit_0_8 = S754_finite false 7205759403792794 (-53).
Proof. reflexivity. Qed.

Lemma lit_1_sf : Prim2SF lit_1 = S754_finite false 4503599627370496 (-52).
Proof. reflexivity. Qed.

Lemma lit_0_8_lt_1 : js_lt lit_0_8 lit_1 = true.
Proof. reflexivity. Qed.

Lemma unguarded_agrees (r t : number) :
  calculateRamPerformance r t = calculateRamPerformance_unguarded r t.
Proof.
  unfold calculateRamPerformance, calculateRamPerformance_unguarded.
  destruct (js_lt (js_div r t) lit_0_8) eqn:Hlt; [reflexivity|].
  destruct (js_ge (js_div r t) lit_0_8) eqn:Hge; [reflexivity|]. simpl.
  destruct (js_lt_ge_false _ _ Hlt Hge) as [Hn|Hn].
  - now rewrite js_lt_nan_l.
  - rewrite lit_0_8_sf in Hn. discriminate.
Qed.

Lemma perf_positive_iff (r t : number) :
  calculateRamPerformance r t = PerformancePositive <->
  js_lt (js_div r t) lit_0_8 = true.
Proof.
  rewrite unguarded_agrees. unfold calculateRamPerformance_unguarded.
  destruct (js_lt (js_div r t) lit_0_8); [tauto|].
  destruct (js_lt (js_div r t) lit_1); intuition discriminate.
Qed.

Lemma perf_negative_iff (r t : number) :
  calculateRamPerformance r t = PerformanceNegative <->
  js_lt (js_div r t) lit_1 = false.
Proof.
  rewrite unguarded_agrees. unfold calculateRamPerformance_unguarded.
  destruct (js_lt (js_div r t) lit_0_8) eqn:H08.
  - rewrite (js_lt_trans _ _ _ H08 lit_0_8_lt_1). intuition discriminate.
  - destruct (js_lt (js_div r t) lit_1); intuition discriminate.
Qed.

Lemma perf_neutral_iff (r t : number) :
  calculateRamPerformance r t = PerformanceNeutral <->
  js_ge (js_div r t) lit_0_8 = true /\ js_lt (js_div r t) lit_1 = true.
Proof.
  unfold calculateRamPerformance.
  destruct (js_lt (js_div r t) lit_0_8) eqn:H08.
  - split; [discriminate|]. intros [Hge _].
    rewrite (js_ge_not_lt _ _ Hge) in H08. discriminate.
  - destruct (js_ge (js_div r t) lit_0_8), (js_lt (js_div r t) lit_1);
      simpl; intuition discriminate.
Qed.

(** C1. The three tiers by the quotient [p = requiredRamAmt / totalRamAmt]
    as JS computes it: Positive exactly when [p < 0.8], Neutral exactly when
    [p >= 0.8] and [p < 1], Negative exactly when [p < 1] fails, which
    covers [p >= 1] and a NaN quotient. *)
Theorem calculateRamPerformance_tiers (r t : number) :
  let p := js_div r t in
  (calculateRamPerformance r t = PerformancePositive <-> js_lt p lit_0_8 = true) /\
  (calculateRamPerformance r t = PerformanceNeutral <->
     js_ge p lit_0_8 = true /\ js_lt p lit_1 = true) /\
  (calculateRamPerformance r t = PerformanceNegative <-> js_lt p lit_1 = false).
Proof.
  split; [|split]; [apply perf_positive_iff | apply perf_neutral_iff | apply perf_negative_iff].
Qed.

(** C9. The [percentage >= 0.8] conjunct of the second branch is redundant:
    once [percentage < 0.8] has failed, [percentage >= 0.8] fails only on a
    NaN, and then [percentage < 1] fails too.  The code equals the code with
    the conjunct dropped, on every pair of numbers. *)
Theorem calculateRamPerformance_guard_redundant (r t : number) :
  calculateRamPerformance r t = calculateRamPerformance_unguarded r t.
Proof. apply unguarded_agrees. Qed.

(** The tier depends on the two figures only through their quotient. *)
Lemma calculateRamPerformance_quotient (r t r' t' : number) :
  js_div r t = js_div r' t' -> calculateRamPerformance r t = calculateRamPerformance r' t'.
Proof. intros H. unfold calculateRamPerformance. now rewrite H. Qed.

(** ** Division by zero and NaN: what the code does where the
    specification leaves the result open *)

Lemma div_nan_l (x y : number) : Prim2SF x = S754_nan -> Prim2SF (js_div x y) = S754_nan.
Proof. intros H. unfold js_div. rewrite div_spec, H. reflexivity. Qed.

Lemma div_nan_r (x y : number) : Prim2SF y = S754_nan -> Prim2SF (js_div x y) = S754_nan.
Proof.
  intros H. unfold js_div. rewrite div_spec, H.
  destruct (Prim2SF x) as [[]|[]| |[] ? ?]; reflexivity.
Qed.

(** C10. A zero total RAM ([totalRam = 0]) with a non-negative requirement
    is classified Negative: [r / 0] is [Infinity] for [r > 0] and NaN for
    [r = 0], and both fail [< 0.8] and [< 1].  The division never throws. *)
Theorem calculateRamPerformance_zero_total (r : number) :
  js_ge r 0%float = true -> calculateRamPerformance r 0%float = PerformanceNegative.
Proof.
  intros Hge. apply perf_negative_iff.
  rewrite js_lt_sf, lit_1_sf. unfold js_div. rewrite div_spec.
  rewrite js_ge_sf in Hge. change (Prim2SF 0%float) with (S754_zero false) in *.
  destruct (Prim2SF r) as [s|[]| |[] m e]; try discriminate Hge; reflexivity.
Qed.

Lemma calculateRamPerformance_zero_total_witness :
  js_ge (num_of_Z 7) 0%float = true /\
  calculateRamPerformance (num_of_Z 7) 0%float = PerformanceNegative.
Proof.
  split; [reflexivity|]. apply calculateRamPerformance_zero_total. reflexivity.
Defined.

(** C11. A NaN on either side (e.g. a [mem.total] or [maxRamRequired] that
    is not a number) yields Negative: the quotient is NaN and the code falls
    to its [else] branch. *)
Theorem calculateRamPerformance_nan (r t : number) :
  PrimFloat.is_nan r = true \/ PrimFloat.is_nan t = true ->
  calculateRamPerformance r t = PerformanceNegative.
Proof.
  intros H. apply perf_negative_iff, js_lt_nan_l.
  destruct H as [H|H]; apply is_nan_spec in H; auto using div_nan_l, div_nan_r.
Qed.

Lemma calculateRamPerformance_nan_witness :
  (PrimFloat.is_nan (num_of_Z 4) = true \/ PrimFloat.is_nan PrimFloat.nan = true) /\
  calculateRamPerformance (num_of_Z 4) PrimFloat.nan = PerformanceNegative.
Proof.
  split; [right; reflexivity|]. apply calculateRamPerformance_nan. right. reflexivity.
Defined.

(** C12. A negative total makes the code recommend the model: for a
    requirement [r >= 0] and a finite total [t < 0] the quotient is a
    negative number, [-0] or [-Infinity] (never NaN), all below [0.8]. *)
Theorem calculateRamPerformance_negative_total (r t : number) :
  js_ge r 0%float = true -> js_lt t 0%float = true -> js_lt PrimFloat.neg_infinity t = true ->
  calculateRamPerformance r t = PerformancePositive.
Proof.
  intros Hr Ht Hinf. apply perf_positive_iff.
  rewrite js_lt_sf, lit_0_8_sf. unfold js_div. rewrite div_spec. unfold SFltb, SF64div.
  rewrite js_ge_sf in Hr. rewrite !js_lt_sf in Ht, Hinf.
  change (Prim2SF 0%float) with (S754_zero false) in *.
  change (Prim2SF PrimFloat.neg_infinity) with (S754_infinity true) in Hinf.
  destruct (Prim2SF t) as [st|st| |st mt et]; try destruct st; try discriminate.
  rewrite SFcompare_neg_pos; [reflexivity|].
  destruct (Prim2SF r) as [sr|sr| |sr mr er]; try destruct sr; try discriminate; auto.
  left. apply SFdiv_finite_sign.
Qed.

Lemma calculateRamPerformance_negative_total_witness :
  js_ge (num_of_Z 4) 0%float = true /\ js_lt (num_of_Z (-8)) 0%float = true /\
  js_lt PrimFloat.neg_infinity (num_of_Z (-8)) = true /\
  calculateRamPerformance (num_of_Z 4) (num_of_Z (-8)) = PerformancePositive.
Proof.
  split; [reflexivity|]. split; [reflexivity|]. split; [reflexivity|].
  apply calculateRamPerformance_negative_total; reflexivity.
Defined.

(** A total of [-0] (equal to [0] under [===]) makes the quotient
    [-Infinity]: the code recommends the model, where a total of [0] gives
    "Not enough RAM". *)
Lemma negative_zero_total_recommended :
  calculateRamPerformance (num_of_Z 1) (PrimFloat.opp 0%float) = PerformancePositive /\
  calculateRamPerformance (num_of_Z 1) 0%float = PerformanceNegative.
Proof. split; reflexivity. Qed.

(** A model that needs exactly the machine's RAM is "Not enough RAM". *)
Lemma equal_ram_negative :
  calculateRamPerformance (num_of_Z 8) (num_of_Z 8) = PerformanceNegative.
Proof. reflexivity. Qed.

End RamPerformance.
