(* ===== verification/PerformanceSpec.v ===== *)
(** * The specification's RAM tiers and their refinement by the code

    The specification (section 4.1) states the tiers over the exact ratio
    [requiredRam / totalRam]: below 0.8 Positive, from 0.8 below 1 Neutral,
    from 1 on Negative ([classify_ratio]).  The comment above the hook
    (lines 7-10) states them differently at the upper end: "Slow" for
    80-100% and "Not enough RAM" when the RAM is below the requirement
    ([comment_tier]).  This file relates [calculateRamPerformance], which
    computes in binary64, to both: it computes the specification's tier on
    every pair of integer figures up to [ram_bound], and on every pair of
    such figures scaled by a common power of two up to [2^40] (figures in
    whole KiB, MiB or GiB); it differs from the comment exactly when the
    requirement equals the RAM.  The label switch is the specification's
    label table ([spec_label]).  The finite checks are evaluated by
    [vm_compute] and made universal by [forall_Z_range_spec]; the scaling
    rests on [SFdiv_shift]. *)

From Stdlib Require Import Floats ZArith QArith Bool String Lia.
From S2P Require Import Prelude JsNumber PerformanceTag.

Module RamSpec.
Import RamPerformance.

(** Section 4.1 of the specification: [ratio < 0.8] is Positive,
    [0.8 <= ratio < 1] Neutral, [ratio >= 1] Negative. *)
Definition Qltb (x y : Q) : bool := negb (Qle_bool y x).

Definition classify_ratio (ratio : Q) : ModelPerformance :=
  if Qltb ratio (4 # 5) then PerformancePositive
  else if Qltb ratio 1 then PerformanceNeutral
  else PerformanceNegative.

(** The same tiers on integer counts, for a positive total: the form the
    bounded check evaluates. *)
Definition classify_counts (r t : Z) : ModelPerformance :=
  if (5 * r <? 4 * t)%Z then PerformancePositive
  else if (r <? t)%Z then PerformanceNeutral
  else PerformanceNegative.

(** The float code agrees with the exact tiers at [(r, t)]. *)
Definition refines_at (r t : Z) : bool :=
  ModelPerformance_eqb (calculateRamPerformance (num_of_Z r) (num_of_Z t))
    (classify_counts r t).

(** The largest RAM figure of the bounded refinement (see the header). *)
Definition ram_bound : Z := 2048.


(** The tiers of the comment above the hook (lines 7-10): "Recommended"
    below 80%, "Slow on your device" for 80-100%, "Not enough RAM" when the
    user's RAM is below the requirement. *)
Definition comment_tier (ratio : Q) : ModelPerformance :=
  if Qltb ratio (4 # 5) then PerformancePositive
  else if Qle_bool ratio 1 then PerformanceNeutral
  else PerformanceNegative.

(** Section 4.1's labels: Positive is "Recommended", Neutral "Slow on your
    device", Negative "Not enough RAM"; an unset tier has the empty label. *)
Definition spec_label (tier : option ModelPerformance) : string :=
  match tier with
  | Some PerformancePositive => "Recommended"
  | Some PerformanceNeutral => "Slow on your device"
  | Some PerformanceNegative => "Not enough RAM"
  | None => ""
  end.

(** Structural equality of specification floats, for the scaling check. *)
Definition sf_eqb (a b : spec_float) : bool :=
  match a, b with
  | S754_zero s, S754_zero s' | S754_infinity s, S754_infinity s' => Bool.eqb s s'
  | S754_nan, S754_nan => true
  | S754_finite s m e, S754_finite s' m' e' =>
      Bool.eqb s s' && Pos.eqb m m' && Z.eqb e e'
  | _, _ => false
  end.

(** The largest power-of-two scale of the scaled refinement. *)
Definition scale_bound : Z := 40.

(** [num_of_Z (r * 2^k)] is [num_of_Z r] with its exponent shifted by [k]:
    the figures are exact (below [2^51]). *)
Definition scaled_exact_at (k r : Z) : bool :=
  sf_eqb (Prim2SF (num_of_Z (r * 2 ^ k))) (shift_sf k (Prim2SF (num_of_Z r))).

(** ** Lemmas *)

Lemma classify_ratio_counts (r t : Z) :
  (0 < t)%Z -> classify_ratio (inject_Z r / inject_Z t) = classify_counts r t.
Proof.
  intros Ht. destruct t as [|p|p]; try lia.
  change (inject_Z r / inject_Z (Z.pos p)) with (Qmake (r * 1) (1 * p)).
  rewrite Z.mul_1_r, Pos.mul_1_l.
  unfold classify_ratio, classify_counts, Qltb.
  change (Qle_bool (4 # 5) (r # p)) with (4 * Z.pos p <=? r * 5)%Z.
  change (Qle_bool 1 (r # p)) with (1 * Z.pos p <=? r * 1)%Z.
  rewrite Z.mul_1_l, Z.mul_1_r.
  destruct (Z.leb_spec (4 * Z.pos p) (r * 5)), (Z.ltb_spec (5 * r) (4 * Z.pos p));
    try lia; simpl; [|reflexivity].
  destruct (Z.leb_spec (Z.pos p) r), (Z.ltb_spec r (Z.pos p)); try lia; reflexivity.
Qed.

Lemma refines_at_bounded :
  forall_Z_range 0 ram_bound
    (fun r => forall_Z_range 1 ram_bound (fun t => refines_at r t)) = true.
Proof. vm_compute. reflexivity. Qed.

Lemma refines_counts (r t : Z) :
  (0 <= r <= ram_bound)%Z -> (1 <= t <= ram_bound)%Z ->
  calculateRamPerformance (num_of_Z r) (num_of_Z t) = classify_counts r t.
Proof.
  intros Hr Ht. apply ModelPerformance_eqb_eq.
  apply (forall_Z_range_spec _ _ _ (forall_Z_range_spec _ _ _ refines_at_bounded r Hr) t Ht).
Qed.

(** ** Scaling by a power of two *)

Lemma sf_eqb_eq (a b : spec_float) : sf_eqb a b = true -> a = b.
Proof.
  destruct a as [s|s| |s m e], b as [s'|s'| |s' m' e']; simpl; try discriminate;
    try (intros H; apply Bool.eqb_prop in H; now subst).
  - reflexivity.
  - intros H. apply andb_true_iff in H as [H He]. apply andb_true_iff in H as [Hs Hm].
    apply Bool.eqb_prop in Hs. apply Pos.eqb_eq in Hm. apply Z.eqb_eq in He. now subst.
Qed.

Lemma scaled_exact_bounded :
  forall_Z_range 0 scale_bound
    (fun k => forall_Z_range 0 ram_bound (fun r => scaled_exact_at k r)) = true.
Proof. vm_compute. reflexivity. Qed.

Lemma num_of_Z_scaled (k r : Z) :
  (0 <= k <= scale_bound)%Z -> (0 <= r <= ram_bound)%Z ->
  Prim2SF (num_of_Z (r * 2 ^ k)) = shift_sf k (Prim2SF (num_of_Z r)).
Proof.
  intros Hk Hr. apply sf_eqb_eq.
  exact (forall_Z_range_spec _ _ _ (forall_Z_range_spec _ _ _ scaled_exact_bounded k Hk) r Hr).
Qed.

(** Dividing two figures scaled by the same [2^k] gives the same number. *)
Lemma js_div_scaled (k r t : Z) :
  (0 <= k <= scale_bound)%Z -> (0 <= r <= ram_bound)%Z -> (0 <= t <= ram_bound)%Z ->
  js_div (num_of_Z (r * 2 ^ k)) (num_of_Z (t * 2 ^ k)) = js_div (num_of_Z r) (num_of_Z t).
Proof.
  intros Hk Hr Ht. apply Prim2SF_inj. unfold js_div. rewrite !div_spec.
  unfold SF64div. rewrite !num_of_Z_scaled by assumption. apply SFdiv_shift.
Qed.

Lemma classify_counts_scale (r t c : Z) :
  (0 < c)%Z -> classify_counts (r * c) (t * c) = classify_counts r t.
Proof.
  intros Hc. unfold classify_counts.
  destruct (Z.ltb_spec (5 * (r * c)) (4 * (t * c))), (Z.ltb_spec (5 * r) (4 * t));
    try nia; [reflexivity|].
  destruct (Z.ltb_spec (r * c) (t * c)), (Z.ltb_spec r t); try nia; reflexivity.
Qed.

(** Figures in a common power-of-two unit classify as their counts do. *)
Lemma refines_scaled (r t k : Z) :
  (0 <= r <= ram_bound)%Z -> (1 <= t <= ram_bound)%Z -> (0 <= k <= scale_bound)%Z ->
  calculateRamPerformance (num_of_Z (r * 2 ^ k)) (num_of_Z (t * 2 ^ k)) =
  classify_ratio (inject_Z (r * 2 ^ k) / inject_Z (t * 2 ^ k)).
Proof.
  intros Hr Ht Hk. assert (Hp : (0 < 2 ^ k)%Z) by (apply Z.pow_pos_nonneg; lia).
  rewrite (calculateRamPerformance_quotient _ _ (num_of_Z r) (num_of_Z t))
    by (apply js_div_scaled; lia).
  rewrite classify_ratio_counts by nia. rewrite classify_counts_scale by exact Hp.
  now apply refines_counts.
Qed.

(** C2. The refinement of the exact tiers holds for figures counted in any
    power-of-two unit up to [2^40] bytes: whenever the requirement and the
    total are [r * 2^k] and [t * 2^k] bytes with [r <= 2048], [1 <= t <=
    2048] and [k <= 40] (whole KiB, MiB, GiB, ... up to 2048 TiB), the
    binary64 code returns the specification's tier of the exact ratio. *)
Theorem calculateRamPerformance_refines_ratio_scaled (r t k : Z) :
  (0 <= r <= ram_bound)%Z -> (1 <= t <= ram_bound)%Z -> (0 <= k <= scale_bound)%Z ->
  calculateRamPerformance (num_of_Z (r * 2 ^ k)) (num_of_Z (t * 2 ^ k)) =
  classify_ratio (inject_Z (r * 2 ^ k) / inject_Z (t * 2 ^ k)).
Proof. apply refines_scaled. Qed.

(** 6 GiB required on a machine with 8 GiB: 75%, "Recommended"; 7 GiB: Slow. *)
Lemma calculateRamPerformance_refines_ratio_scaled_witness :
  calculateRamPerformance (num_of_Z (6 * 2 ^ 30)) (num_of_Z (8 * 2 ^ 30)) =
    classify_ratio (inject_Z (6 * 2 ^ 30) / inject_Z (8 * 2 ^ 30)) /\
  classify_ratio (inject_Z (6 * 2 ^ 30) / inject_Z (8 * 2 ^ 30)) = PerformancePositive /\
  calculateRamPerformance (num_of_Z (7 * 2 ^ 30)) (num_of_Z (8 * 2 ^ 30)) = PerformanceNeutral.
Proof.
  split; [apply calculateRamPerformance_refines_ratio_scaled; unfold ram_bound, scale_bound; lia|].
  split; vm_compute; reflexivity.
Defined.

(** ** The comment above the hook *)

Lemma comment_tier_counts (r t : Z) :
  (0 < t)%Z ->
  comment_tier (inject_Z r / inject_Z t) =
  if (5 * r <? 4 * t)%Z then PerformancePositive
  else if (r <=? t)%Z then PerformanceNeutral
  else PerformanceNegative.
Proof.
  intros Ht. destruct t as [|p|p]; try lia.
  change (inject_Z r / inject_Z (Z.pos p)) with (Qmake (r * 1) (1 * p)).
  rewrite Z.mul_1_r, Pos.mul_1_l.
  unfold comment_tier, Qltb.
  change (Qle_bool (4 # 5) (r # p)) with (4 * Z.pos p <=? r * 5)%Z.
  change (Qle_bool (r # p) 1) with (r * 1 <=? 1 * Z.pos p)%Z.
  rewrite Z.mul_1_l, Z.mul_1_r.
  destruct (Z.leb_spec (4 * Z.pos p) (r * 5)), (Z.ltb_spec (5 * r) (4 * Z.pos p));
    try lia; simpl; [|reflexivity].
  destruct (Z.leb_spec r (Z.pos p)); reflexivity.
Qed.

(** C8. Against the comment above the hook, on integer figures in the
    bound: the code gives the comment's tier exactly when the requirement
    differs from the RAM; a requirement equal to the RAM is "Not enough
    RAM" in the code and "Slow on your device" in the comment. *)
Theorem calculateRamPerformance_vs_comment (r t : Z) :
  (0 <= r <= ram_bound)%Z -> (1 <= t <= ram_bound)%Z ->
  (calculateRamPerformance (num_of_Z r) (num_of_Z t) = comment_tier (inject_Z r / inject_Z t)
   <-> r <> t).
Proof.
  intros Hr Ht. rewrite refines_counts, comment_tier_counts by lia.
  unfold classify_counts.
  destruct (Z.ltb_spec (5 * r) (4 * t)); [split; [intros _; lia | reflexivity]|].
  destruct (Z.ltb_spec r t), (Z.leb_spec r t); try lia;
    split; intros; try discriminate; try reflexivity; lia.
Qed.

Lemma calculateRamPerformance_vs_comment_witness :
  calculateRamPerformance (num_of_Z 8) (num_of_Z 8) = PerformanceNegative /\
  comment_tier (inject_Z 8 / inject_Z 8) = PerformanceNeutral /\
  ~ (calculateRamPerformance (num_of_Z 8) (num_of_Z 8) = comment_tier (inject_Z 8 / inject_Z 8)).
Proof.
  split; [reflexivity|]. split; [reflexivity|].
  intros H. apply (calculateRamPerformance_vs_comment 8 8) in H;
    [apply H; reflexivity | unfold ram_bound; lia | unfold ram_bound; lia].
Defined.

(** ** The labels *)

(** C21. The label switch of the hook (lines 24-35) is the specification's
    label table: each tier gets its own label of section 4.1, and an unset
    tag (no [case] matches [undefined]) leaves the empty label. *)
Theorem title_spec_labels (tier : option ModelPerformance) :
  title tier = spec_label tier.
Proof. destruct tier as [[]|]; reflexivity. Qed.

End RamSpec.
