(* ===== verification/PerformanceHook.v ===== *)
(** * The [useGetPerformanceTag] hook: state and asynchronous updates

    The hook (lines 12-38) keeps [performanceTag] in a [useState] and
    exposes [getPerformanceForModel], an [async] function that awaits the
    resource probe ([executeSerial(SystemMonitoringService.GetResourcesInfo)])
    and then stores [calculateRamPerformance(maxRamRequired, mem.total)].
    The function is split at its [await]: a call registers a pending
    request, and the probe settling resumes it ([getPerformanceForModel_resume]).
    A [World] holds the hook state and the requests in flight, keyed by call
    number in a [gmap]; [step] runs one event and [reachable] closes the
    initial world under steps.  Several calls can be in flight at once and
    the probe may settle them in any order, which is how the hook is used
    when the user moves from one model to the next. *)

From stdpp Require Import base gmap list.
From Stdlib Require Import String.
From S2P Require Import Prelude JsNumber PerformanceTag.

Module PerformanceHook.
Import RamPerformance.

(** ** Data *)

(** [ModelVersion], as far as the hook reads it. *)
Record ModelVersion := { maxRamRequired : number }.

(** The probe's answer, [{ mem: { total, ... } }]. *)
Record MemInfo := { total : number }.
Record ResourceInfo := { mem : MemInfo }.

(** How [await executeSerial(...)] returns: with the resource information,
    or by throwing (a rejected promise). *)
Inductive ProbeOutcome :=
| ProbeResolved (resourceInfo : ResourceInfo)
| ProbeRejected.

(** How the promise returned by [getPerformanceForModel] settles. *)
Inductive Settlement := Fulfilled | Rejected.

(** [const [performanceTag, setPerformanceTag] = useState<TagType | undefined>()] *)
Record HookState := { performanceTag : option ModelPerformance }.

Definition initial_state : HookState := {| performanceTag := None |}.

(** The hook's return value [{ performanceTag, title, getPerformanceForModel }]
    (the function is the [Call] event below). *)
Record HookView := { view_performanceTag : option ModelPerformance; view_title : string }.

Definition useGetPerformanceTag (st : HookState) : HookView :=
  {| view_performanceTag := performanceTag st; view_title := title (performanceTag st) |}.

(** ** [getPerformanceForModel] *)

(** The code after the [await] (lines 19-21).  A rejected probe propagates
    out of the [async] function before [setPerformanceTag] runs: the state is
    kept and the returned promise rejects. *)
Definition getPerformanceForModel_resume (modelVersion : ModelVersion)
    (outcome : ProbeOutcome) (st : HookState) : HookState * Settlement :=
  match outcome with
  | ProbeResolved resourceInfo =>
      let totalRam := total (mem resourceInfo) in
      let requiredRam := maxRamRequired modelVersion in
      ({| performanceTag := Some (calculateRamPerformance requiredRam totalRam) |},
       Fulfilled)
  | ProbeRejected => (st, Rejected)
  end.

(** ** Interleaving of calls *)

Record World := {
  hook : HookState;
  pending : gmap nat ModelVersion;   (* awaits in flight, by call number *)
  next_call : nat
}.

Definition world0 : World :=
  {| hook := initial_state; pending := ∅; next_call := 0 |}.

Inductive Event :=
| Call (modelVersion : ModelVersion)          (* getPerformanceForModel(mv) *)
| Settle (call : nat) (outcome : ProbeOutcome). (* its await returns *)

(** One event; [None] when a settlement names no call in flight. *)
Definition step (e : Event) (w : World) : option World :=
  match e with
  | Call mv =>
      Some {| hook := hook w;
              pending := <[next_call w := mv]> (pending w);
              next_call := S (next_call w) |}
  | Settle n outcome =>
      match pending w !! n with
      | None => None
      | Some mv =>
          Some {| hook := fst (getPerformanceForModel_resume mv outcome (hook w));
                  pending := delete n (pending w);
                  next_call := next_call w |}
      end
  end.

Fixpoint run (es : list Event) (w : World) : option World :=
  match es with
  | [] => Some w
  | e :: es' => w' ← step e w; run es' w'
  end.

Inductive reachable : World -> Prop :=
| reachable_init : reachable world0
| reachable_step e w w' : reachable w -> step e w = Some w' -> reachable w'.

(** Whether an event can change the tag: only a resolved probe does. *)
Definition resolves (e : Event) : bool :=
  match e with
  | Settle _ (ProbeResolved _) => true
  | _ => false
  end.

(** Sample inputs: two models needing 4 and 9 units of RAM on a machine
    with 8 (the specification's scenarios). *)
Definition small_model : ModelVersion := {| maxRamRequired := num_of_Z 4 |}.
Definition large_model : ModelVersion := {| maxRamRequired := num_of_Z 9 |}.
Definition eight_units : ResourceInfo := {| mem := {| total := num_of_Z 8 |} |}.

Definition world_one_call : World :=
  {| hook := initial_state; pending := <[0 := small_model]> ∅; next_call := 1 |}.

Definition small_then_resolved : list Event :=
  [Call small_model; Settle 0 (ProbeResolved eight_units)].

Definition world_two_calls : World :=
  {| hook := initial_state; pending := <[1 := large_model]> (<[0 := small_model]> ∅);
     next_call := 2 |}.

Definition world_small_resolved : World :=
  {| hook := {| performanceTag := Some PerformancePositive |};
     pending := ∅; next_call := 1 |}.

(** Well-formedness: every call in flight has a number below the next one. *)
Definition wf_world (w : World) : Prop :=
  map_Forall (fun n _ => n < next_call w) (pending w).

(** ** The hook's specification over traces

    What the hook should show after a trace of calls and settlements,
    stated without call numbers in flight: the calls are numbered by their
    order in the trace, and the tag is the classification of the model of
    the call whose probe resolved last. *)
Definition spec_step (e : Event) (st : list ModelVersion * option ModelPerformance)
    : list ModelVersion * option ModelPerformance :=
  let '(calls, tag) := st in
  match e with
  | Call mv => (calls ++ [mv], tag)
  | Settle n (ProbeResolved info) =>
      (calls, match calls !! n with
              | Some mv => Some (calculateRamPerformance (maxRamRequired mv) (total (mem info)))
              | None => tag
              end)
  | Settle _ ProbeRejected => (calls, tag)
  end.

Definition spec_run (es : list Event) (st : list ModelVersion * option ModelPerformance)
    : list ModelVersion * option ModelPerformance :=
  fold_left (fun st e => spec_step e st) es st.

Definition spec_tag (es : list Event) : option ModelPerformance :=
  snd (spec_run es ([], None)).

(** The simulation relation: the world shows the specification's tag, has
    issued as many calls as the specification has numbered, and each call
    in flight is the specification's call of that number. *)
Definition refines_spec (w : World) (st : list ModelVersion * option ModelPerformance) : Prop :=
  performanceTag (hook w) = snd st /\ next_call w = List.length (fst st) /\
  map_Forall (fun n mv => fst st !! n = Some mv) (pending w).

(** The model of the last call of a trace, if there is one. *)
Definition last_call (es : list Event) : option ModelVersion :=
  fold_left (fun acc e => match e with Call mv => Some mv | Settle _ _ => acc end) es None.

(** Serial use, the "single outstanding request" of section 5 of the
    specification: [getPerformanceForModel] is called only when no earlier
    call is still awaiting the probe. *)
Definition serial_ok (e : Event) (w : World) : Prop :=
  match e with Call _ => pending w = ∅ | Settle _ _ => True end.

Fixpoint serial (es : list Event) (w : World) : Prop :=
  match es with
  | [] => True
  | e :: es' => serial_ok e w /\ match step e w with Some w' => serial es' w' | None => True end
  end.

(** In a serial run, the only call in flight is the latest one. *)
Definition latest_in_flight (w : World) (last : option ModelVersion) : Prop :=
  map_Forall (fun n mv => S n = next_call w /\ last = Some mv) (pending w).

(** ** Lemmas on [step] and [run] *)

Lemma run_app (es1 es2 : list Event) (w : World) :
  run (es1 ++ es2) w = (w1 ← run es1 w; run es2 w1).
Proof.
  revert w. induction es1 as [|e es1 IH]; intros w; simpl; [done|].
  destruct (step e w); simpl; [apply IH|done].
Qed.

Lemma step_wf (e : Event) (w w' : World) :
  wf_world w -> step e w = Some w' -> wf_world w'.
Proof.
  unfold wf_world. intros Hwf Hs. destruct e as [mv|n o]; simpl in Hs.
  - injection Hs as <-. simpl. apply map_Forall_insert_2; [lia|].
    eapply map_Forall_impl; [exact Hwf|]. simpl. lia.
  - destruct (pending w !! n) eqn:E; [|done]. injection Hs as <-. simpl.
    by apply map_Forall_delete.
Qed.

Lemma step_settle (n : nat) (o : ProbeOutcome) (w w' : World) :
  step (Settle n o) w = Some w' ->
  exists mv, pending w !! n = Some mv /\
    hook w' = fst (getPerformanceForModel_resume mv o (hook w)).
Proof.
  simpl. destruct (pending w !! n) as [mv|]; [|done]. intros [= <-]. eauto.
Qed.

Lemma step_keeps_hook (e : Event) (w w' : World) :
  resolves e = false -> step e w = Some w' -> hook w' = hook w.
Proof.
  intros Hr Hs. destruct e as [mv|n [info|]]; simpl in Hr; try done.
  - by injection Hs as <-.
  - apply step_settle in Hs as (mv & _ & ->). reflexivity.
Qed.

Lemma run_keeps_hook (es : list Event) (w w' : World) :
  Forall (fun e => resolves e = false) es -> run es w = Some w' -> hook w' = hook w.
Proof.
  revert w. induction es as [|e es IH]; intros w Hf Hrun; simpl in Hrun.
  - by injection Hrun as <-.
  - inversion Hf as [|? ? He Hes]; subst.
    destruct (step e w) as [w1|] eqn:Hs; [|done].
    rewrite (IH w1 Hes Hrun). exact (step_keeps_hook _ _ _ He Hs).
Qed.

Lemma reachable_wf_world (w : World) : reachable w -> wf_world w.
Proof.
  induction 1 as [|e w w' _ IH Hs].
  - apply map_Forall_empty.
  - exact (step_wf _ _ _ IH Hs).
Qed.

Lemma run_reachable (es : list Event) (w w' : World) :
  reachable w -> run es w = Some w' -> reachable w'.
Proof.
  revert w. induction es as [|e es IH]; intros w Hw Hrun; simpl in Hrun.
  - by injection Hrun as <-.
  - destruct (step e w) as [w1|] eqn:Hs; [|done].
    exact (IH w1 (reachable_step _ _ _ Hw Hs) Hrun).
Qed.

Lemma wf_fresh (w : World) : wf_world w -> pending w !! next_call w = None.
Proof.
  intros Hwf. destruct (pending w !! next_call w) as [mv|] eqn:E; [|done].
  pose proof (map_Forall_lookup_1 _ _ _ _ Hwf E). simpl in *. lia.
Qed.

Lemma step_refines (e : Event) (w w' : World) (st : list ModelVersion * option ModelPerformance) :
  refines_spec w st -> step e w = Some w' -> refines_spec w' (spec_step e st).
Proof.
  destruct st as [calls tag]. unfold refines_spec; simpl.
  intros (Htag & Hnext & Hpend) Hs. destruct e as [mv|n o]; simpl in Hs.
  - injection Hs as <-; simpl. rewrite length_app. simpl. split; [done|]. split; [lia|].
    apply map_Forall_insert_2.
    + apply list_lookup_middle. lia.
    + eapply map_Forall_impl; [exact Hpend|]. intros n mv' H. by apply lookup_app_l_Some.
  - destruct (pending w !! n) as [mv|] eqn:E; [|done]. injection Hs as <-; simpl.
    pose proof (map_Forall_lookup_1 _ _ _ _ Hpend E) as Hc. simpl in Hc.
    destruct o as [info|]; simpl; rewrite ?Hc;
      (split; [done|]); (split; [done|]); by apply map_Forall_delete.
Qed.

Lemma run_refines (es : list Event) (w w' : World) (st : list ModelVersion * option ModelPerformance) :
  refines_spec w st -> run es w = Some w' -> refines_spec w' (spec_run es st).
Proof.
  revert w st. induction es as [|e es IH]; intros w st Hr Hrun; simpl in Hrun.
  - by injection Hrun as <-.
  - destruct (step e w) as [w1|] eqn:Hs; [|done].
    exact (IH w1 _ (step_refines e w w1 st Hr Hs) Hrun).
Qed.

Lemma last_call_snoc (es : list Event) (e : Event) :
  last_call (es ++ [e]) = match e with Call mv => Some mv | Settle _ _ => last_call es end.
Proof. unfold last_call. rewrite fold_left_app. by destruct e. Qed.

Lemma run_snoc (es : list Event) (e : Event) (w : World) :
  run (es ++ [e]) w = (w1 ← run es w; step e w1).
Proof.
  rewrite run_app. destruct (run es w) as [w1|]; [|done]. cbn -[step].
  by destruct (step e w1).
Qed.

Lemma serial_app (es1 es2 : list Event) (w : World) :
  serial (es1 ++ es2) w -> serial es1 w /\ forall w1, run es1 w = Some w1 -> serial es2 w1.
Proof.
  revert w. induction es1 as [|e es1 IH]; intros w Hs; simpl in *.
  - split; [done|]. by intros w1 [= <-].
  - destruct Hs as [Hok Hs]. destruct (step e w) as [w'|]; [|done].
    destruct (IH w' Hs) as [H1 H2]. split; [by split|exact H2].
Qed.

Lemma step_latest (e : Event) (w w' : World) (last : option ModelVersion) :
  latest_in_flight w last -> serial_ok e w -> step e w = Some w' ->
  latest_in_flight w' (match e with Call mv => Some mv | Settle _ _ => last end).
Proof.
  unfold latest_in_flight. intros Hl Hok Hs. destruct e as [mv|n o]; simpl in *.
  - injection Hs as <-. simpl. rewrite Hok, insert_empty.
    apply map_Forall_singleton. done.
  - destruct (pending w !! n) eqn:E; [|done]. injection Hs as <-. simpl.
    by apply map_Forall_delete.
Qed.

Lemma serial_latest (es : list Event) (w : World) :
  serial es world0 -> run es world0 = Some w -> latest_in_flight w (last_call es).
Proof.
  revert w. induction es as [|e es IH] using rev_ind; intros w Hs Hrun.
  - injection Hrun as <-. apply map_Forall_empty.
  - apply serial_app in Hs as [Hs1 Hs2]. rewrite run_app in Hrun.
    destruct (run es world0) as [w1|] eqn:E1; [|done]. simpl in Hrun.
    destruct (step e w1) as [w2|] eqn:Hst; [|done]. injection Hrun as <-.
    specialize (Hs2 w1 eq_refl). simpl in Hs2. destruct Hs2 as [Hok _].
    rewrite last_call_snoc. exact (step_latest e w1 w2 _ (IH w1 Hs1 eq_refl) Hok Hst).
Qed.

(** ** Theorems *)

(** C4. The tag a run leaves is decided by the last probe that resolved:
    either no probe resolved during the run and the hook state is the one
    before it, or the run splits at its last resolution [Settle n
    (ProbeResolved info)] and the tag is the classification of the model
    of call [n] against [info.mem.total], whatever was called or rejected
    after it. *)
Theorem run_tag_last_resolution (es : list Event) (w w' : World) :
  run es w = Some w' ->
  (Forall (fun e => resolves e = false) es /\ hook w' = hook w) \/
  exists es1 n info es2 w1 mv,
    es = es1 ++ Settle n (ProbeResolved info) :: es2 /\
    Forall (fun e => resolves e = false) es2 /\
    run es1 w = Some w1 /\ pending w1 !! n = Some mv /\
    performanceTag (hook w') =
      Some (calculateRamPerformance (maxRamRequired mv) (total (mem info))).
Proof.
  revert w. induction es as [|e es IH]; intros w Hrun; simpl in Hrun.
  - injection Hrun as <-. left. auto.
  - destruct (step e w) as [w1|] eqn:Hs; [|done].
    destruct (IH w1 Hrun) as [[Hno Hhook] | (es1 & n & info & es2 & w2 & mv & -> & Hes2 & Hr1 & Hmv & Htag)].
    + destruct (resolves e) eqn:Hr.
      * right. destruct e as [|n [info|]]; try done.
        apply step_settle in Hs as (mv & Hmv & Hh).
        exists [], n, info, es, w, mv. rewrite Hhook, Hh. auto.
      * left. split; [by constructor|]. rewrite Hhook. exact (step_keeps_hook _ _ _ Hr Hs).
    + right. exists (e :: es1), n, info, es2, w2, mv. simpl. rewrite Hs. auto.
Qed.

Lemma run_tag_last_resolution_witness :
  run small_then_resolved world0 = Some world_small_resolved /\
  ((Forall (fun e => resolves e = false) small_then_resolved /\
    hook world_small_resolved = hook world0) \/
   exists es1 n info es2 w1 mv,
    small_then_resolved = es1 ++ Settle n (ProbeResolved info) :: es2 /\
    Forall (fun e => resolves e = false) es2 /\
    run es1 world0 = Some w1 /\ pending w1 !! n = Some mv /\
    performanceTag (hook world_small_resolved) =
      Some (calculateRamPerformance (maxRamRequired mv) (total (mem info)))).
Proof.
  split; [reflexivity|].
  exact (run_tag_last_resolution small_then_resolved world0 world_small_resolved eq_refl).
Defined.

(** C5. Out-of-order resolution leaves a stale tag: when
    [getPerformanceForModel(A)] and then [getPerformanceForModel(B)] are in
    flight and the probe answers B first, the tag ends as A's
    classification although B was requested last.  The hook has no guard
    against a stale resumption. *)
Theorem stale_result_race (mvA mvB : ModelVersion) (info : ResourceInfo) :
  exists w,
    run [Call mvA; Call mvB; Settle 1 (ProbeResolved info);
         Settle 0 (ProbeResolved info)] world0 = Some w /\
    pending w = ∅ /\
    performanceTag (hook w) =
      Some (calculateRamPerformance (maxRamRequired mvA) (total (mem info))).
Proof. eexists. split; [reflexivity|]. split; reflexivity. Qed.

(** C3. Refinement of the trace specification: after any trace the hook
    runs from its initial state, its tag is [spec_tag] of the trace, the
    classification of the model of the call whose probe resolved last
    (calls numbered in trace order), or unset when none resolved. *)
Theorem run_refines_spec_tag (es : list Event) (w : World) :
  run es world0 = Some w -> performanceTag (hook w) = spec_tag es.
Proof.
  intros Hrun. unfold spec_tag.
  assert (H0 : refines_spec world0 ([], None)).
  { split; [done|]. split; [done|]. apply map_Forall_empty. }
  exact (proj1 (run_refines es world0 w _ H0 Hrun)).
Qed.

Lemma run_refines_spec_tag_witness :
  run small_then_resolved world0 = Some world_small_resolved /\
  performanceTag (hook world_small_resolved) = spec_tag small_then_resolved.
Proof.
  split; [reflexivity|]. exact (run_refines_spec_tag small_then_resolved world_small_resolved eq_refl).
Defined.

(** C14. Round trip: in a reachable world, a call followed by the rejection
    of its probe gives back the world it started from, the call counter
    excepted. *)
Theorem call_reject_roundtrip (w : World) (mv : ModelVersion) :
  reachable w ->
  run [Call mv; Settle (next_call w) ProbeRejected] w =
    Some {| hook := hook w; pending := pending w; next_call := S (next_call w) |}.
Proof.
  intros Hw. simpl. rewrite lookup_insert_eq. simpl.
  rewrite delete_insert_id; [reflexivity|].
  exact (wf_fresh w (reachable_wf_world w Hw)).
Qed.

Lemma call_reject_roundtrip_witness :
  reachable world_one_call /\
  run [Call large_model; Settle 1 ProbeRejected] world_one_call =
    Some {| hook := initial_state; pending := <[0 := small_model]> ∅; next_call := 2 |}.
Proof.
  assert (H : reachable world_one_call).
  { apply (reachable_step (Call small_model) world0); [apply reachable_init | reflexivity]. }
  split; [exact H | exact (call_reject_roundtrip world_one_call large_model H)].
Defined.

(** C15. Ordering: the settlements of two distinct calls commute when one
    of them is a rejection.  A rejected [await] changes nothing but the
    calls in flight, so only the order of two resolutions can matter (which
    C5 shows it does). *)
Theorem settle_rejected_commute (w : World) (n m : nat) (o1 o2 : ProbeOutcome) :
  n <> m -> o1 = ProbeRejected \/ o2 = ProbeRejected ->
  run [Settle n o1; Settle m o2] w = run [Settle m o2; Settle n o1] w.
Proof.
  intros Hnm Ho. simpl.
  destruct (pending w !! n) as [a|] eqn:En, (pending w !! m) as [b|] eqn:Em; simpl;
    rewrite ?lookup_delete_ne, ?En, ?Em by done; simpl; try done.
  rewrite delete_delete.
  destruct Ho as [-> | ->]; [destruct o2 | destruct o1]; reflexivity.
Qed.

Lemma settle_rejected_commute_witness :
  0 <> 1 /\ (ProbeRejected = ProbeRejected \/ ProbeResolved eight_units = ProbeRejected) /\
  run [Settle 0 ProbeRejected; Settle 1 (ProbeResolved eight_units)] world_two_calls =
  run [Settle 1 (ProbeResolved eight_units); Settle 0 ProbeRejected] world_two_calls.
Proof.
  split; [lia|]. split; [left; reflexivity|].
  apply settle_rejected_commute; [lia | left; reflexivity].
Defined.

(** C6. The race needs overlapping calls: in serial use (each call made
    when no earlier call is still awaiting the probe), a resolved probe
    always answers the latest call, and the tag it stores is the
    classification of the model requested last. *)
Theorem serial_resolution_latest (es : list Event) (n : nat) (info : ResourceInfo) (w : World) :
  serial (es ++ [Settle n (ProbeResolved info)]) world0 ->
  run (es ++ [Settle n (ProbeResolved info)]) world0 = Some w ->
  exists mv, last_call es = Some mv /\
    performanceTag (hook w) = Some (calculateRamPerformance (maxRamRequired mv) (total (mem info))).
Proof.
  intros Hs Hrun. apply serial_app in Hs as [Hs1 _]. rewrite run_snoc in Hrun.
  destruct (run es world0) as [w1|] eqn:E1; [|done]. cbn -[step] in Hrun.
  apply step_settle in Hrun as (mv & Hmv & ->).
  exists mv. split; [|reflexivity].
  exact (proj2 (map_Forall_lookup_1 _ _ _ _ (serial_latest es w1 Hs1 E1) Hmv)).
Qed.

(** The 4-unit model is requested and its probe rejected, then the 9-unit
    one: the resolution that follows classifies the 9-unit model. *)
Lemma serial_resolution_latest_witness :
  serial ([Call small_model; Settle 0 ProbeRejected; Call large_model] ++
          [Settle 1 (ProbeResolved eight_units)]) world0 /\
  run ([Call small_model; Settle 0 ProbeRejected; Call large_model] ++
       [Settle 1 (ProbeResolved eight_units)]) world0 =
    Some {| hook := {| performanceTag := Some PerformanceNegative |};
            pending := ∅; next_call := 2 |} /\
  exists mv, last_call [Call small_model; Settle 0 ProbeRejected; Call large_model] = Some mv /\
    Some PerformanceNegative =
      Some (calculateRamPerformance (maxRamRequired mv) (total (mem eight_units))).
Proof.
  assert (Hs : serial ([Call small_model; Settle 0 ProbeRejected; Call large_model] ++
                       [Settle 1 (ProbeResolved eight_units)]) world0)
    by (vm_compute; repeat split).
  split; [exact Hs|]. split; [reflexivity|].
  exact (serial_resolution_latest _ 1 eight_units _ Hs eq_refl).
Defined.

(** The race on the sample models: the 4-unit model is requested, then the
    9-unit one; the probe answers the second call first.  The label ends as
    "Recommended" while the model requested last does not fit in 8 units. *)
Lemma stale_result_race_example :
  exists w,
    run [Call small_model; Call large_model; Settle 1 (ProbeResolved eight_units);
         Settle 0 (ProbeResolved eight_units)] world0 = Some w /\
    view_title (useGetPerformanceTag (hook w)) = "Recommended"%string /\
    calculateRamPerformance (maxRamRequired large_model) (total (mem eight_units)) =
      PerformanceNegative.
Proof. eexists. split; [reflexivity|]. split; reflexivity. Qed.

End PerformanceHook.
