(* ===== verification/PerformanceView.v ===== *)
(** * What the hook shows: the classifier, the hook and its label composed

    [useGetPerformanceTag] returns [{ performanceTag, title,
    getPerformanceForModel }]; a model page calls [getPerformanceForModel]
    and renders [title].  This file composes the three layers modelled
    separately: the float classifier ([PerformanceTag]), its specification
    ([PerformanceSpec]) and the hook's asynchronous state
    ([PerformanceHook]).  It states what a call whose own probe resolves
    shows, and that the tier and label shown after a call on figures in a
    common power-of-two unit are the specification's tier of the exact
    ratio and its label. *)

From stdpp Require Import base list gmap.
From Stdlib Require Import Floats ZArith QArith String Lia.
From S2P Require Import Prelude JsNumber PerformanceTag PerformanceSpec PerformanceHook.

Module PerformanceView.
Import RamPerformance RamSpec PerformanceHook.

(** The record the hook returns once the tier [tier] is stored. *)
Definition shown (tier : ModelPerformance) : HookView :=
  {| view_performanceTag := Some tier; view_title := title (Some tier) |}.

(** A 7-unit model, the seven-eighths scenario of section 8. *)
Definition seven_model : ModelVersion := {| maxRamRequired := num_of_Z 7 |}.

(** ** Lemmas *)

(** A call followed by the resolution of its own probe stores the tier of
    the model against the probed RAM and leaves the other calls in flight. *)
Lemma call_resolve_run (w : World) (mv : ModelVersion) (info : ResourceInfo) :
  reachable w ->
  run [Call mv; Settle (next_call w) (ProbeResolved info)] w =
    Some {| hook := {| performanceTag :=
                         Some (calculateRamPerformance (maxRamRequired mv) (total (mem info))) |};
            pending := pending w; next_call := S (next_call w) |}.
Proof.
  intros Hw. simpl. rewrite lookup_insert_eq. simpl.
  rewrite delete_insert_id; [reflexivity|].
  exact (wf_fresh w (reachable_wf_world w Hw)).
Qed.

(** ** Theorems *)

(** C13. A call whose own probe resolves shows the tier of the model's
    requirement against the probed RAM, with its label, and leaves the
    other calls in flight untouched. *)
Theorem call_resolve_view (w : World) (mv : ModelVersion) (info : ResourceInfo) :
  reachable w ->
  exists w', run [Call mv; Settle (next_call w) (ProbeResolved info)] w = Some w' /\
    pending w' = pending w /\
    useGetPerformanceTag (hook w') =
      shown (calculateRamPerformance (maxRamRequired mv) (total (mem info))).
Proof. intros Hw. rewrite (call_resolve_run w mv info Hw). by eexists. Qed.

(** Section 8's scenario: 7 units required on an 8-unit machine is "Slow
    on your device". *)
Lemma call_resolve_view_witness :
  reachable world0 /\
  (exists w', run [Call seven_model; Settle 0 (ProbeResolved eight_units)] world0 = Some w' /\
     pending w' = pending world0 /\
     useGetPerformanceTag (hook w') =
       shown (calculateRamPerformance (maxRamRequired seven_model) (total (mem eight_units)))) /\
  title (Some (calculateRamPerformance (maxRamRequired seven_model) (total (mem eight_units))))
    = "Slow on your device"%string.
Proof.
  split; [apply reachable_init|]. split; [|reflexivity].
  exact (call_resolve_view world0 seven_model eight_units reachable_init).
Defined.

(** C7. Composition of the hook with the refinement of the classifier:
    when a model requiring [r * 2^k] bytes is requested and the probe
    reports [t * 2^k] bytes ([r <= 2048], [1 <= t <= 2048], [k <= 40]),
    the hook shows the specification's tier of the exact ratio and its
    label. *)
Theorem shown_label_refines_spec (w : World) (r t k : Z) :
  reachable w ->
  (0 <= r <= ram_bound)%Z -> (1 <= t <= ram_bound)%Z -> (0 <= k <= scale_bound)%Z ->
  exists w',
    run [Call {| maxRamRequired := num_of_Z (r * 2 ^ k) |};
         Settle (next_call w) (ProbeResolved {| mem := {| total := num_of_Z (t * 2 ^ k) |} |})] w
      = Some w' /\
    useGetPerformanceTag (hook w') =
      shown (classify_ratio (inject_Z (r * 2 ^ k) / inject_Z (t * 2 ^ k))).
Proof.
  intros Hw Hr Ht Hk. rewrite call_resolve_run by exact Hw. simpl.
  rewrite refines_scaled by assumption. by eexists.
Qed.

(** 7 GiB required on an 8 GiB machine: "Slow on your device". *)
Lemma shown_label_refines_spec_witness :
  reachable world0 /\ (0 <= 7 <= ram_bound)%Z /\ (1 <= 8 <= ram_bound)%Z /\
  (0 <= 30 <= scale_bound)%Z /\
  (exists w',
    run [Call {| maxRamRequired := num_of_Z (7 * 2 ^ 30) |};
         Settle 0 (ProbeResolved {| mem := {| total := num_of_Z (8 * 2 ^ 30) |} |})] world0
      = Some w' /\
    useGetPerformanceTag (hook w') =
      shown (classify_ratio (inject_Z (7 * 2 ^ 30) / inject_Z (8 * 2 ^ 30)))) /\
  view_title (shown (classify_ratio (inject_Z (7 * 2 ^ 30) / inject_Z (8 * 2 ^ 30))))
    = "Slow on your device"%string.
Proof.
  unfold ram_bound, scale_bound.
  split; [apply reachable_init|]. do 3 (split; [lia|]). split; [|vm_compute; reflexivity].
  apply (shown_label_refines_spec world0 7 8 30 reachable_init); unfold ram_bound, scale_bound; lia.
Defined.

End PerformanceView.
