(* ===== verification/Jest.v ===== *)
(** * The part of Jest's mock runtime the ErrorMessage suite uses

    A [jest.fn()] is a named entry of a mock store ([gmap string mock]): its
    recorded calls and the value [mockReturnValue] last set.  A function
    value held by the component or by another mock's return value is the
    name of its entry ([AFn name]), so two places holding the same mock
    alias one store entry, as two JS references to one [jest.fn] do.
    Calling a value that is no mock of the store is a [TypeError] ([None]).
    The matchers [toHaveBeenCalled] and [toHaveBeenCalledWith] read the
    calls. *)

From stdpp Require Import base gmap strings list.
From S2P Require Import Prelude.

Module Jest.

(** ** Values *)

(** Values without nested structure. *)
Inductive atom :=
| AUndefined
| ABool (b : bool)
| AString (s : string)
| AMessage (id : string)   (* a ThreadMessage, by its id *)
| AFn (mock : string).     (* a function: the jest.fn of that name *)

(** Values as the suite builds them: atoms, arrays of atoms ([[]]) and
    objects with atom fields ([{ resendChatMessage: mockResendChatMessage }]). *)
Inductive value :=
| VAtom (a : atom)
| VArray (elems : list atom)
| VObject (fields : list (string * atom)).

#[export] Instance atom_eq_dec : EqDecision atom.
Proof. solve_decision. Defined.

#[export] Instance value_eq_dec : EqDecision value.
Proof. solve_decision. Defined.

(** ** The mock store *)

Record mock := { mock_calls : list (list value); mock_return : value }.

Definition fresh_mock : mock := {| mock_calls := []; mock_return := VAtom AUndefined |}.

(** [const name = jest.fn()] *)
Definition jest_fn (name : string) (s : gmap string mock) : gmap string mock :=
  <[name := fresh_mock]> s.

(** [(name as jest.Mock).mockReturnValue(v)]: later calls return [v].  On
    a name that is no mock JS would throw; the model leaves the store as it
    is, a case that never arises in the suite, whose [beforeEach] only
    names the module mocks ([is_Some_beforeEach]). *)
Definition mockReturnValue (name : string) (v : value) (s : gmap string mock)
    : gmap string mock :=
  alter (fun m => {| mock_calls := mock_calls m; mock_return := v |}) name s.

(** [jest.clearAllMocks()]: every mock forgets its calls and keeps its
    return value. *)
Definition clearAllMocks (s : gmap string mock) : gmap string mock :=
  (fun m => {| mock_calls := []; mock_return := mock_return m |}) <$> s.

(** Calling a function value with arguments. *)
Definition call_fn (f : atom) (args : list value) (s : gmap string mock)
    : option (value * gmap string mock) :=
  match f with
  | AFn name =>
      m ← s !! name;
      Some (mock_return m,
            <[name := {| mock_calls := mock_calls m ++ [args];
                         mock_return := mock_return m |}]> s)
  | _ => None
  end.

(** What a mock returns when called (its return value), without the call. *)
Definition returned (name : string) (s : gmap string mock) : value :=
  from_option mock_return (VAtom AUndefined) (s !! name).

(** The calls a mock has recorded. *)
Definition calls (name : string) (s : gmap string mock) : list (list value) :=
  from_option mock_calls [] (s !! name).

(** [expect(name).toHaveBeenCalled()] *)
Definition toHaveBeenCalled (name : string) (s : gmap string mock) : bool :=
  negb (bool_decide (calls name s = [])).

(** [expect(name).toHaveBeenCalledWith(...args)] *)
Definition toHaveBeenCalledWith (name : string) (args : list value)
    (s : gmap string mock) : bool :=
  bool_decide (args ∈ calls name s).

(** ** Lemmas *)

Lemma calls_call_fn_same (name : string) (args : list value) (s s' : gmap string mock)
    (v : value) :
  call_fn (AFn name) args s = Some (v, s') -> calls name s' = calls name s ++ [args].
Proof.
  unfold call_fn, calls. destruct (_ !! name) as [m|] eqn:E; simpl; [|done].
  intros [= <- <-]. by rewrite lookup_insert_eq.
Qed.

Lemma calls_call_fn_other (name other : string) (args : list value)
    (s s' : gmap string mock) (v : value) :
  name ≠ other ->
  call_fn (AFn name) args s = Some (v, s') -> calls other s' = calls other s.
Proof.
  unfold call_fn, calls. intros Hne. destruct (_ !! name) as [m|]; simpl; [|done].
  intros [= <- <-]. by rewrite lookup_insert_ne.
Qed.

Lemma call_fn_mock (name : string) (args : list value) (s : gmap string mock) :
  is_Some (s !! name) ->
  exists s', call_fn (AFn name) args s = Some (returned name s, s').
Proof.
  intros [m Hm]. unfold call_fn, returned. simpl. rewrite Hm. simpl. eauto.
Qed.

Lemma returned_mockReturnValue (name : string) (v : value) (s : gmap string mock) :
  is_Some (s !! name) -> returned name (mockReturnValue name v s) = v.
Proof.
  intros [m Hm]. unfold returned, mockReturnValue. rewrite lookup_alter. case_decide; [|done]. by rewrite Hm.
Qed.

Lemma calls_clearAllMocks (name : string) (s : gmap string mock) :
  calls name (clearAllMocks s) = [].
Proof.
  unfold calls, clearAllMocks. rewrite lookup_fmap.
  by destruct (s !! name).
Qed.

Lemma returned_mockReturnValue_ne (name other : string) (v : value)
    (s : gmap string mock) :
  name ≠ other -> returned other (mockReturnValue name v s) = returned other s.
Proof.
  intros Hne. unfold returned, mockReturnValue. by rewrite lookup_alter_ne.
Qed.

Lemma is_Some_mockReturnValue (name other : string) (v : value) (s : gmap string mock) :
  is_Some (s !! other) -> is_Some (mockReturnValue name v s !! other).
Proof.
  intros H. unfold mockReturnValue. by apply lookup_alter_is_Some.
Qed.

Lemma is_Some_clearAllMocks (name : string) (s : gmap string mock) :
  is_Some (s !! name) -> is_Some (clearAllMocks s !! name).
Proof. intros [m Hm]. unfold clearAllMocks. rewrite lookup_fmap, Hm. simpl. eauto. Qed.

Lemma calls_mockReturnValue (name other : string) (v : value) (s : gmap string mock) :
  calls other (mockReturnValue name v s) = calls other s.
Proof.
  unfold calls, mockReturnValue. rewrite lookup_alter.
  case_decide; [subst; by destruct (s !! other)|done].
Qed.

(** The mock operations keep the set of mocks of the store. *)
Lemma dom_clearAllMocks (s : gmap string mock) : dom (clearAllMocks s) = dom s.
Proof. apply dom_fmap_L. Qed.

Lemma dom_mockReturnValue (name : string) (v : value) (s : gmap string mock) :
  dom (mockReturnValue name v s) = dom s.
Proof. apply dom_alter_L. Qed.

Lemma call_fn_dom (name : string) (args : list value) (s s' : gmap string mock) (v : value) :
  call_fn (AFn name) args s = Some (v, s') -> dom s' = dom s.
Proof.
  unfold call_fn. destruct (s !! name) as [m|] eqn:E; simpl; [|done].
  intros [= <- <-]. apply dom_insert_lookup_L. eauto.
Qed.

(** A mock that has just been called satisfies both matchers for that call. *)
Lemma toHaveBeenCalled_call_fn (name : string) (args : list value) (s s' : gmap string mock)
    (v : value) :
  call_fn (AFn name) args s = Some (v, s') -> toHaveBeenCalled name s' = true.
Proof.
  intros Hs. unfold toHaveBeenCalled. rewrite (calls_call_fn_same _ _ _ _ _ Hs).
  rewrite bool_decide_eq_false_2; [done|]. intros Hnil. by apply app_eq_nil in Hnil as [_ ?].
Qed.

Lemma toHaveBeenCalledWith_call_fn (name : string) (args : list value)
    (s s' : gmap string mock) (v : value) :
  call_fn (AFn name) args s = Some (v, s') -> toHaveBeenCalledWith name args s' = true.
Proof.
  intros Hs. unfold toHaveBeenCalledWith. rewrite (calls_call_fn_same _ _ _ _ _ Hs).
  apply bool_decide_eq_true_2. set_solver.
Qed.

End Jest.
