(* ===== verification/ErrorMessage.v ===== *)
(** * The [ErrorMessage] component's contract

    [ErrorMessage/index.tsx] is not part of the repository; this file models
    its contract from the specification (section 4.2): a terminal message's
    status and error code select a recovery disposition, the component
    renders that disposition's texts and one clickable element, and the
    click calls exactly one collaborator: the chat-resend function with the
    message for [Interrupted], the settings-screen setter for [AuthError],
    the troubleshooting-modal setter with [true] for [GenericError].  The
    texts are the ones the test file checks.  The collaborators are the
    function values the component obtains from its hooks; their calls are
    calls of [Jest] function values, so that the suite's mocks can stand for
    them. *)

From stdpp Require Import base gmap strings list.
From S2P Require Import Prelude Jest.

Module ErrorMessage.
Import Jest.

(** ** Data *)

(** [MessageStatus] of [@janhq/core], the two terminal statuses the
    component reacts to and the others. *)
Inductive MessageStatus :=
| Stopped
| Error
| OtherStatus (name : string).

(** [ErrorCode] of [@janhq/core]: the code the component singles out, the
    generic one, and any other. *)
Inductive ErrorCode :=
| InvalidApiKey
| Unknown
| OtherErrorCode (name : string).

#[export] Instance ErrorCode_eq_dec : EqDecision ErrorCode.
Proof. solve_decision. Defined.

(** [ThreadMessage], the fields the component and the suite use. *)
Record ThreadMessage := {
  id : string;
  status : MessageStatus;
  error_code : option ErrorCode;
  content : list string
}.

Inductive Disposition := Interrupted | AuthError | GenericError.

(** The click handlers the rendered elements carry. *)
Inductive Handler := Regenerate | OpenSettings | OpenTroubleShooting.

(** A rendered element, as testing-library queries it: its text, its
    [data-testid] and its click handler. *)
Record Element := {
  el_text : option string;
  el_testid : option string;
  el_onclick : option Handler
}.

(** The function values the component obtains from its hooks, and the
    screen value it selects on an authentication error. *)
Record Collaborators := {
  resendChatMessage : atom;
  setSelectedSettingScreen : atom;
  setModalTroubleShooting : atom;
  apiKeySettingScreen : value
}.

(** ** Operations *)

(** The disposition table: [Stopped] is [Interrupted]; [Error] is
    [AuthError] for [InvalidApiKey] and [GenericError] for any other or no
    code; any other status renders nothing. *)
Definition classify (message : ThreadMessage) : option Disposition :=
  match status message with
  | Stopped => Some Interrupted
  | Error =>
      match error_code message with
      | Some InvalidApiKey => Some AuthError
      | _ => Some GenericError
      end
  | OtherStatus _ => None
  end.

Definition text_el (t : string) : Element :=
  {| el_text := Some t; el_testid := None; el_onclick := None |}.

Definition button_el (t : string) (h : Handler) : Element :=
  {| el_text := Some t; el_testid := None; el_onclick := Some h |}.

Definition testid_el (tid : string) : Element :=
  {| el_text := None; el_testid := Some tid; el_onclick := None |}.

Definition render (message : ThreadMessage) : list Element :=
  match classify message with
  | Some Interrupted =>
      [text_el "Oops! The generation was interrupted. Let's give it another go!";
       button_el "Regenerate" Regenerate]
  | Some AuthError =>
      [testid_el "invalid-API-key-error"; button_el "Settings" OpenSettings]
  | Some GenericError =>
      [text_el "Apologies, something’s amiss!";
       button_el "troubleshooting assistance" OpenTroubleShooting]
  | None => []
  end.

(** The handler of a click: one call of one collaborator; [None] when the
    value called is not a function (a [TypeError]). *)
Definition handle (c : Collaborators) (message : ThreadMessage) (h : Handler)
    (s : gmap string mock) : option (gmap string mock) :=
  match h with
  | Regenerate =>
      snd <$> call_fn (resendChatMessage c) [VAtom (AMessage (id message))] s
  | OpenSettings =>
      snd <$> call_fn (setSelectedSettingScreen c) [apiKeySettingScreen c] s
  | OpenTroubleShooting =>
      snd <$> call_fn (setModalTroubleShooting c) [VAtom (ABool true)] s
  end.

(** [screen.getByText(t)]: the single element with that text; it throws
    ([None]) when there is none or more than one. *)
Definition getByText (t : string) (els : list Element) : option Element :=
  match filter (fun e => el_text e = Some t) els with
  | [e] => Some e
  | _ => None
  end.

(** [screen.getByTestId(tid)] *)
Definition getByTestId (tid : string) (els : list Element) : option Element :=
  match filter (fun e => el_testid e = Some tid) els with
  | [e] => Some e
  | _ => None
  end.

(** [fireEvent.click(el)]: runs the element's handler, if any. *)
Definition click (c : Collaborators) (message : ThreadMessage) (el : Element)
    (s : gmap string mock) : option (gmap string mock) :=
  match el_onclick el with
  | Some h => handle c message h
  | None => fun s => Some s
  end s.

(** The collaborator a handler calls. *)
Definition collaborator_of (c : Collaborators) (h : Handler) : atom :=
  match h with
  | Regenerate => resendChatMessage c
  | OpenSettings => setSelectedSettingScreen c
  | OpenTroubleShooting => setModalTroubleShooting c
  end.

(** The arguments of a handler's call. *)
Definition args_of (c : Collaborators) (message : ThreadMessage) (h : Handler)
    : list value :=
  match h with
  | Regenerate => [VAtom (AMessage (id message))]
  | OpenSettings => [apiKeySettingScreen c]
  | OpenTroubleShooting => [VAtom (ABool true)]
  end.

(** ** Lemmas *)

(** Clicking a button found by [getByText] calls its handler's collaborator. *)
Lemma click_button (c : Collaborators) (m : ThreadMessage) (t : string) (h : Handler)
    (s : gmap string mock) (k : gmap string mock -> option (gmap string mock)) :
  (Some (button_el t h) ≫= λ el, click c m el s ≫= k) =
  (snd <$> call_fn (collaborator_of c h) (args_of c m h) s) ≫= k.
Proof. by destruct h. Qed.

Lemma classify_cases (message : ThreadMessage) :
  classify message = None <-> (exists name, status message = OtherStatus name).
Proof.
  unfold classify. destruct (status message) as [| |name].
  - split; [discriminate|]. intros [? ?]; discriminate.
  - destruct (error_code message) as [[]|]; (split; [discriminate|]); intros [? ?]; discriminate.
  - split; eauto.
Qed.

(** ** Theorems *)

(** The disposition table is total and never throws: a [Stopped]
    message is [Interrupted]; an [Error] message is [AuthError] when its
    code is [InvalidApiKey] and [GenericError] for any other code or none
    (the catch-all); exactly the other statuses render nothing. *)
Theorem classify_table (message : ThreadMessage) :
  (status message = Stopped -> classify message = Some Interrupted) /\
  (status message = Error ->
     classify message =
       Some (if bool_decide (error_code message = Some InvalidApiKey)
             then AuthError else GenericError)) /\
  (classify message = None <-> exists name, status message = OtherStatus name).
Proof.
  split; [|split]; [unfold classify; by intros -> | | apply classify_cases].
  unfold classify. intros ->.
  destruct (error_code message) as [[| |name]|]; reflexivity.
Qed.

End ErrorMessage.
