(* ===== verification/ErrorMessageTest.v ===== *)
(** * The Jest suite [ErrorMessage/index.test.tsx]

    The suite replaces [useAtomValue] and [useSetAtom] of [jotai] and the
    default export of [useSendChatMessage] by [jest.fn] mocks (lines 11-23),
    creates four mocks for the collaborators (lines 26-29), and before each
    case clears the mocks' calls and sets the hooks' return values (lines
    31-38).  Each [it] renders [ErrorMessage] on a fixture message, queries
    texts and test ids, clicks, and checks the mocks' calls.  Here a case is
    a function of the mock store that returns the store it leaves, or
    [None] when a query throws or an expectation fails.  The cases take
    the component as a parameter, a [Component] record of its rendering and
    its click handling, so that the suite can be run on the contract's
    component ([error_message]: [ErrorMessage.render]/[click]) and on
    components that deviate from it; the component's collaborators are
    what its hooks return under the mocks ([collaborators_of]). *)

From stdpp Require Import base gmap strings list.
From S2P Require Import Prelude Jest ErrorMessage.

Module ErrorMessageTest.
Import Jest ErrorMessage.

(** ** Module mocks and collaborator mocks *)

(** [jest.mock('jotai', ...)] and [jest.mock('@/hooks/useSendChatMessage', ...)]:
    the three hooks become [jest.fn()]s. *)
Definition module_mocks : gmap string mock :=
  jest_fn "useAtomValue" (jest_fn "useSetAtom" (jest_fn "useSendChatMessage" ∅)).

(** [const mockSetMainState = jest.fn()] and the three others. *)
Definition describe_mocks (s : gmap string mock) : gmap string mock :=
  jest_fn "mockResendChatMessage"
    (jest_fn "mockSetModalTroubleShooting"
       (jest_fn "mockSetSelectedSettingScreen" (jest_fn "mockSetMainState" s))).

Definition suite_store : gmap string mock := describe_mocks module_mocks.

(** [beforeEach]: the statements in their order.  The three
    [mockReturnValue] calls on [useSetAtom] overwrite one another. *)
Definition beforeEach (s : gmap string mock) : gmap string mock :=
  let s := clearAllMocks s in
  let s := mockReturnValue "useAtomValue" (VArray []) s in
  let s := mockReturnValue "useSetAtom" (VAtom (AFn "mockSetMainState")) s in
  let s := mockReturnValue "useSetAtom" (VAtom (AFn "mockSetSelectedSettingScreen")) s in
  let s := mockReturnValue "useSetAtom" (VAtom (AFn "mockSetModalTroubleShooting")) s in
  mockReturnValue "useSendChatMessage"
    (VObject [("resendChatMessage", AFn "mockResendChatMessage")]) s.

(** A function value read from a hook's return value. *)
Definition as_fn (v : value) : atom :=
  match v with VAtom a => a | _ => AUndefined end.

(** [v.name]; in an object literal the last field of a name wins. *)
Definition field (name : string) (v : value) : atom :=
  match v with
  | VObject fields =>
      from_option (fun a => a) AUndefined
        (list_to_map (M := gmap string atom) (reverse fields) !! name)
  | _ => AUndefined
  end.

(** The collaborators the component's hooks return under the mocks:
    [useSendChatMessage().resendChatMessage] and the value of
    [useSetAtom(...)] for each setter. *)
Definition collaborators_of (screen : value) (s : gmap string mock) : Collaborators :=
  {| resendChatMessage := field "resendChatMessage" (returned "useSendChatMessage" s);
     setSelectedSettingScreen := as_fn (returned "useSetAtom" s);
     setModalTroubleShooting := as_fn (returned "useSetAtom" s);
     apiKeySettingScreen := screen |}.

(** A screen value for concrete runs. *)
Definition AUndefined_screen : value := VAtom AUndefined.

(** ** Fixtures *)

Definition stoppedMessage : ThreadMessage :=
  {| id := "1"; status := Stopped; error_code := None; content := ["Test message"] |}.

Definition invalidApiKeyMessage : ThreadMessage :=
  {| id := "1"; status := Error; error_code := Some InvalidApiKey;
     content := ["Invalid API Key"] |}.

Definition unknownErrorMessage : ThreadMessage :=
  {| id := "1"; status := Error; error_code := Some Unknown;
     content := ["Unknown error occurred"] |}.

(** ** Cases *)

Definition expect (b : bool) (s : gmap string mock) : option (gmap string mock) :=
  if b then Some s else None.

Definition in_document (el : option Element) : bool := bool_decide (is_Some el).

(** ** The component under test

    The suite reaches the component only through [render(<ErrorMessage
    message={message} />)] and [fireEvent.click] on what it rendered: a
    [Component] is that pair of operations, and [error_message] is the
    component of [./index] as its contract describes it. *)
Record Component := {
  comp_render : ThreadMessage -> list Element;
  comp_click : Collaborators -> ThreadMessage -> Element ->
               gmap string mock -> option (gmap string mock)
}.

Definition error_message : Component := {| comp_render := render; comp_click := click |}.

Section Cases.

(** The component the suite renders. *)
Variable comp : Component.

(** The collaborators the rendered component calls, as a function of the
    mock store at the click. *)
Variable collaborators : gmap string mock -> Collaborators.

Definition it_renders_stopped (s : gmap string mock) : option (gmap string mock) :=
  let els := comp_render comp stoppedMessage in
  expect (in_document (getByText "Oops! The generation was interrupted. Let's give it another go!" els)
          && in_document (getByText "Regenerate" els)) s.

Definition it_renders_invalid_api_key (s : gmap string mock) : option (gmap string mock) :=
  let els := comp_render comp invalidApiKeyMessage in
  expect (in_document (getByTestId "invalid-API-key-error" els)
          && in_document (getByText "Settings" els)) s.

Definition it_renders_general_error (s : gmap string mock) : option (gmap string mock) :=
  let els := comp_render comp unknownErrorMessage in
  expect (in_document (getByText "Apologies, something’s amiss!" els)
          && in_document (getByText "troubleshooting assistance" els)) s.

Definition it_calls_regenerate (s : gmap string mock) : option (gmap string mock) :=
  el ← getByText "Regenerate" (comp_render comp stoppedMessage);
  s ← comp_click comp (collaborators s) stoppedMessage el s;
  expect (toHaveBeenCalled "mockResendChatMessage" s) s.

Definition it_opens_troubleshooting (s : gmap string mock) : option (gmap string mock) :=
  el ← getByText "troubleshooting assistance" (comp_render comp unknownErrorMessage);
  s ← comp_click comp (collaborators s) unknownErrorMessage el s;
  expect (toHaveBeenCalledWith "mockSetModalTroubleShooting" [VAtom (ABool true)] s) s.

Definition cases : list (gmap string mock -> option (gmap string mock)) :=
  [it_renders_stopped; it_renders_invalid_api_key; it_renders_general_error;
   it_calls_regenerate; it_opens_troubleshooting].

End Cases.

(** A component that resends with the arguments [args] instead of the
    message. *)
Definition resend_with (args : list value) : Component :=
  {| comp_render := render;
     comp_click := fun c m el s =>
       match el_onclick el with
       | Some Regenerate => snd <$> call_fn (resendChatMessage c) args s
       | _ => click c m el s
       end |}.

(** A component that also offers the troubleshooting link for a message
    whose status the contract says renders nothing. *)
Definition surface_all : Component :=
  {| comp_render := fun m =>
       match classify m with
       | None => [button_el "troubleshooting assistance" OpenTroubleShooting]
       | Some _ => render m
       end;
     comp_click := click |}.

(** The suite's fixture messages. *)
Definition fixtures : list ThreadMessage :=
  [stoppedMessage; invalidApiKeyMessage; unknownErrorMessage].

(** A component that renders, and handles clicks, as the contract does on
    the fixture messages (whatever it does on other messages). *)
Definition agrees_on_fixtures (comp : Component) : Prop :=
  forall m, m ∈ fixtures ->
    comp_render comp m = render m /\ forall c, comp_click comp c m = click c m.

(** Jest runs the cases in order, [beforeEach] before each, on the mocks
    the previous case left; a failing case reports [false] and leaves the
    mocks as they were before it. *)
Fixpoint run_cases (cs : list (gmap string mock -> option (gmap string mock)))
    (s : gmap string mock) : list bool :=
  match cs with
  | [] => []
  | c :: cs' =>
      match c (beforeEach s) with
      | Some s' => true :: run_cases cs' s'
      | None => false :: run_cases cs' (beforeEach s)
      end
  end.

(** ** Lemmas *)

Lemma is_Some_beforeEach (name : string) (s : gmap string mock) :
  is_Some (s !! name) -> is_Some (beforeEach s !! name).
Proof.
  intros H. unfold beforeEach.
  repeat (apply is_Some_mockReturnValue). by apply is_Some_clearAllMocks.
Qed.

Lemma returned_beforeEach_useSetAtom (s : gmap string mock) :
  is_Some (s !! "useSetAtom") ->
  returned "useSetAtom" (beforeEach s) = VAtom (AFn "mockSetModalTroubleShooting").
Proof.
  intros H. unfold beforeEach.
  rewrite returned_mockReturnValue_ne by done.
  apply returned_mockReturnValue.
  repeat (apply is_Some_mockReturnValue). by apply is_Some_clearAllMocks.
Qed.

Lemma returned_beforeEach_useSendChatMessage (s : gmap string mock) :
  is_Some (s !! "useSendChatMessage") ->
  returned "useSendChatMessage" (beforeEach s) =
    VObject [("resendChatMessage", AFn "mockResendChatMessage")].
Proof.
  intros H. unfold beforeEach. apply returned_mockReturnValue.
  repeat (apply is_Some_mockReturnValue). by apply is_Some_clearAllMocks.
Qed.

(** What the component's hooks return after [beforeEach]: both setters
    are the troubleshooting mock. *)
Lemma collaborators_beforeEach (screen : value) (s : gmap string mock) :
  is_Some (s !! "useSetAtom") -> is_Some (s !! "useSendChatMessage") ->
  collaborators_of screen (beforeEach s) =
    {| resendChatMessage := AFn "mockResendChatMessage";
       setSelectedSettingScreen := AFn "mockSetModalTroubleShooting";
       setModalTroubleShooting := AFn "mockSetModalTroubleShooting";
       apiKeySettingScreen := screen |}.
Proof.
  intros H1 H2. unfold collaborators_of.
  rewrite returned_beforeEach_useSetAtom, returned_beforeEach_useSendChatMessage by done.
  reflexivity.
Qed.

Lemma dom_beforeEach (s : gmap string mock) : dom (beforeEach s) = dom s.
Proof. unfold beforeEach. by rewrite !dom_mockReturnValue, dom_clearAllMocks. Qed.

(** Each case, run after [beforeEach] on a store with the suite's mocks,
    passes and leaves a store with the same mocks. *)
Lemma case_passes (comp : Component) (screen : value)
    (c : gmap string mock -> option (gmap string mock)) (s : gmap string mock) :
  agrees_on_fixtures comp ->
  c ∈ cases comp (collaborators_of screen) -> dom s = dom suite_store ->
  exists s', c (beforeEach s) = Some s' /\ dom s' = dom suite_store.
Proof.
  intros Hag Hc Hd. rewrite <- (dom_beforeEach s) in Hd.
  destruct (Hag stoppedMessage ltac:(by repeat constructor)) as [Hr1 Hc1].
  destruct (Hag invalidApiKeyMessage ltac:(by repeat constructor)) as [Hr2 _].
  destruct (Hag unknownErrorMessage ltac:(by repeat constructor)) as [Hr3 Hc3].
  assert (Hm : forall name, is_Some (suite_store !! name) -> is_Some (beforeEach s !! name)).
  { intros name Hn. apply elem_of_dom. rewrite Hd. by apply elem_of_dom. }
  assert (Hs : forall name, is_Some (suite_store !! name) -> is_Some (s !! name)).
  { intros name Hn. apply elem_of_dom. rewrite <- (dom_beforeEach s), Hd. by apply elem_of_dom. }
  pose proof (collaborators_beforeEach screen s (Hs "useSetAtom" ltac:(by eexists))
    (Hs "useSendChatMessage" ltac:(by eexists))) as Hcol.
  unfold cases in Hc. rewrite !elem_of_cons, elem_of_nil in Hc.
  destruct Hc as [->|[->|[->|[->|[->|[]]]]]].
  - unfold it_renders_stopped. rewrite Hr1. by eexists.
  - unfold it_renders_invalid_api_key. rewrite Hr2. by eexists.
  - unfold it_renders_general_error. rewrite Hr3. by eexists.
  - unfold it_calls_regenerate. rewrite Hcol, Hr1, Hc1.
    change (getByText "Regenerate" (render stoppedMessage))
      with (Some (button_el "Regenerate" Regenerate)).
    rewrite click_button. simpl collaborator_of. simpl args_of.
    destruct (call_fn_mock "mockResendChatMessage" [VAtom (AMessage "1")] (beforeEach s))
      as [s' Hcall]; [apply Hm; by eexists|].
    rewrite Hcall. simpl. rewrite (toHaveBeenCalled_call_fn _ _ _ _ _ Hcall).
    exists s'. by rewrite (call_fn_dom _ _ _ _ _ Hcall).
  - unfold it_opens_troubleshooting. rewrite Hcol, Hr3, Hc3.
    change (getByText "troubleshooting assistance" (render unknownErrorMessage))
      with (Some (button_el "troubleshooting assistance" OpenTroubleShooting)).
    rewrite click_button. simpl collaborator_of. simpl args_of.
    destruct (call_fn_mock "mockSetModalTroubleShooting" [VAtom (ABool true)] (beforeEach s))
      as [s' Hcall]; [apply Hm; by eexists|].
    rewrite Hcall. simpl. rewrite (toHaveBeenCalledWith_call_fn _ _ _ _ _ Hcall).
    exists s'. by rewrite (call_fn_dom _ _ _ _ _ Hcall).
Qed.

(** Any sequence of the cases, run on a component that agrees with the
    contract on the fixtures, passes from a store with the suite's mocks. *)
Lemma cases_pass (comp : Component) (screen : value)
    (cs : list (gmap string mock -> option (gmap string mock))) (s : gmap string mock) :
  agrees_on_fixtures comp ->
  Forall (fun c => c ∈ cases comp (collaborators_of screen)) cs -> dom s = dom suite_store ->
  run_cases cs s = replicate (List.length cs) true.
Proof.
  intros Hag Hcs. revert s. induction Hcs as [|c cs Hc _ IH]; intros s Hd; [done|].
  destruct (case_passes comp screen c s Hag Hc Hd) as (s' & Hs & Hd').
  simpl. rewrite Hs. f_equal. by apply IH.
Qed.

Lemma error_message_agrees : agrees_on_fixtures error_message.
Proof. intros m _. split; reflexivity. Qed.

Lemma surface_all_agrees : agrees_on_fixtures surface_all.
Proof.
  intros m Hm. unfold fixtures in Hm. rewrite !elem_of_cons, elem_of_nil in Hm.
  destruct Hm as [->|[->|[->|[]]]]; split; reflexivity.
Qed.

(** ** Theorems *)

(** C16. After [beforeEach], on any store holding the hook mocks, both
    setters the component obtains from [useSetAtom] are
    [mockSetModalTroubleShooting]: the three [mockReturnValue] calls on the
    same mock leave only the last, so [mockSetMainState] and
    [mockSetSelectedSettingScreen] are never handed to the component. *)
Theorem beforeEach_setters_alias (screen : value) (s : gmap string mock) :
  is_Some (s !! "useSetAtom") -> is_Some (s !! "useSendChatMessage") ->
  collaborators_of screen (beforeEach s) =
    {| resendChatMessage := AFn "mockResendChatMessage";
       setSelectedSettingScreen := AFn "mockSetModalTroubleShooting";
       setModalTroubleShooting := AFn "mockSetModalTroubleShooting";
       apiKeySettingScreen := screen |}.
Proof. apply collaborators_beforeEach. Qed.

Lemma beforeEach_setters_alias_witness :
  is_Some (suite_store !! "useSetAtom") /\ is_Some (suite_store !! "useSendChatMessage") /\
  collaborators_of AUndefined_screen (beforeEach suite_store) =
    {| resendChatMessage := AFn "mockResendChatMessage";
       setSelectedSettingScreen := AFn "mockSetModalTroubleShooting";
       setModalTroubleShooting := AFn "mockSetModalTroubleShooting";
       apiKeySettingScreen := AUndefined_screen |}.
Proof.
  split; [eexists; reflexivity|]. split; [eexists; reflexivity|].
  apply beforeEach_setters_alias; eexists; reflexivity.
Defined.

(** C17. [beforeEach] isolates the cases: after it, no mock of the store
    has a recorded call, whatever the previous cases recorded, so each
    expectation on calls only sees the calls of its own case. *)
Theorem beforeEach_clears_calls (s : gmap string mock) (name : string) :
  calls name (beforeEach s) = [].
Proof. unfold beforeEach. rewrite !calls_mockReturnValue. apply calls_clearAllMocks. Qed.

(** C18. The cases do not depend on one another: any sequence of the
    suite's cases, in any order and with repetitions (as with Jest's
    [--randomize] or [-t] filters), run from any store holding the suite's
    mocks, passes every case.  [beforeEach] resets what a case depends on,
    and no case removes a mock. *)
Theorem suite_order_independent (screen : value)
    (cs : list (gmap string mock -> option (gmap string mock))) (s : gmap string mock) :
  Forall (fun c => c ∈ cases error_message (collaborators_of screen)) cs -> dom s = dom suite_store ->
  run_cases cs s = replicate (List.length cs) true.
Proof. apply cases_pass, error_message_agrees. Qed.

Lemma suite_order_independent_witness :
  Forall (fun c => c ∈ cases error_message (collaborators_of AUndefined_screen))
    (reverse (cases error_message (collaborators_of AUndefined_screen))) /\
  dom suite_store = dom suite_store /\
  run_cases (reverse (cases error_message (collaborators_of AUndefined_screen))) suite_store =
    [true; true; true; true; true].
Proof.
  assert (H : Forall (fun c => c ∈ cases error_message (collaborators_of AUndefined_screen))
    (reverse (cases error_message (collaborators_of AUndefined_screen)))).
  { apply Forall_forall. intros c Hc. by apply elem_of_reverse in Hc. }
  split; [exact H|]. split; [reflexivity|].
  exact (suite_order_independent AUndefined_screen _ suite_store H eq_refl).
Defined.

(** C19. The regenerate case checks only that the resend mock was called:
    a component that resends with any arguments whatsoever, instead of the
    message, passes the whole suite. *)
Theorem suite_blind_to_resend_arguments (screen : value) (args : list value) :
  run_cases (cases (resend_with args) (collaborators_of screen)) suite_store =
    [true; true; true; true; true].
Proof. vm_compute. reflexivity. Qed.

(** C20. The suite observes the component only on its three fixture
    messages: every component that renders and handles clicks as the
    contract does on them passes the five cases, whatever it does on any
    other message, e.g. showing an error surface for a message whose
    status is neither [Stopped] nor [Error], which the contract renders as
    nothing. *)
Theorem suite_passes_agreeing_components (comp : Component) (screen : value) :
  agrees_on_fixtures comp ->
  run_cases (cases comp (collaborators_of screen)) suite_store = [true; true; true; true; true].
Proof.
  intros Hag. rewrite (cases_pass comp screen (cases comp (collaborators_of screen)) suite_store Hag);
    [reflexivity | apply Forall_forall; by intros c | done].
Qed.

(** [surface_all] shows the troubleshooting link for a message still being
    generated, where the contract renders nothing, and passes the suite. *)
Lemma suite_passes_agreeing_components_witness :
  agrees_on_fixtures surface_all /\
  run_cases (cases surface_all (collaborators_of AUndefined_screen)) suite_store =
    [true; true; true; true; true] /\
  render {| id := "2"; status := OtherStatus "pending"; error_code := None; content := [] |} = [] /\
  comp_render surface_all
    {| id := "2"; status := OtherStatus "pending"; error_code := None; content := [] |} <> [].
Proof.
  split; [exact surface_all_agrees|].
  split; [exact (suite_passes_agreeing_components surface_all AUndefined_screen surface_all_agrees)|].
  split; [reflexivity | discriminate].
Defined.

End ErrorMessageTest.
